(** * deploy_mxs_vm.py: a shallow embedding of the [Stage1] deployment script

    The script is sequential orchestration of external tools, console
    prompts and file patching.  It is embedded as state passing over a
    [world] (console, log, command trace, the six temporary directory
    names held by [self], and the host operating system), with an outcome
    type that separates a normal return, a raised Python exception and
    [sys.exit].  The host is an interface ([Host]): every theorem stated
    over it holds for every behaviour of the external tools and of the
    file system; a small simulated host ([SimHost]) is used to run the
    program on concrete inputs. *)

From Stdlib Require Import ZArith String Ascii List Bool Lia DecimalString DecimalPos.
From stdpp Require Import base strings gmap list.

Local Open Scope string_scope.

(** ** Python strings *)

(** The double-quote character, for the directive strings of the config files. *)
Definition dq : string := String (ascii_of_nat 34) EmptyString.
(** The line feed. *)
Definition nl : string := String (ascii_of_nat 10) EmptyString.

(** [str(n)] for a Python integer. *)
Definition str_int (n : Z) : string := NilZero.string_of_int (Z.to_int n).

(** [str(b)] for a Python boolean. *)
Definition str_bool (b : bool) : string := if b then "True" else "False".

(** [s.startswith(p)]. *)
Fixpoint startswith (p s : string) : bool :=
  match p, s with
  | EmptyString, _ => true
  | String a p', String b s' => if Ascii.eqb a b then startswith p' s' else false
  | String _ _, EmptyString => false
  end.

(** [sub in s] for strings. *)
Fixpoint str_in (sub s : string) : bool :=
  startswith sub s ||
  match s with
  | EmptyString => false
  | String _ s' => str_in sub s'
  end.

(** [s[n:]]. *)
Fixpoint str_drop (n : nat) (s : string) : string :=
  match n, s with
  | O, _ => s
  | S _, EmptyString => EmptyString
  | S k, String _ s' => str_drop k s'
  end.

(** [s.replace(old, new)]: every non-overlapping occurrence of [old], scanning
    from the left.  [skip] counts the characters of a matched occurrence that
    are still to be dropped.  With an empty [old] Python inserts [new] before
    every character and at the end. *)
Fixpoint replace_from (old new : string) (skip : nat) (s : string) : string :=
  match s with
  | EmptyString => EmptyString
  | String c s' =>
      match skip with
      | S k => replace_from old new k s'
      | O =>
          if startswith old s
          then new +:+ replace_from old new (String.length old - 1) s'
          else String c (replace_from old new 0 s')
      end
  end.

Fixpoint interleave (new s : string) : string :=
  match s with
  | EmptyString => new
  | String c s' => new +:+ String c (interleave new s')
  end.

Definition str_replace (s old new : string) : string :=
  match old with
  | EmptyString => interleave new s
  | String _ _ => replace_from old new 0 s
  end.

(** Whether [c] occurs in [s]. *)
Fixpoint has_char (c : ascii) (s : string) : bool :=
  match s with
  | EmptyString => false
  | String a s' => Ascii.eqb a c || has_char c s'
  end.

(** The proper suffixes of [s], longest first. *)
Fixpoint suffixes (s : string) : list string :=
  match s with
  | EmptyString => []
  | String _ s' => s' :: suffixes s'
  end.

(** No proper, non-empty suffix of [r] is a prefix of [new] or has [new] as a
    prefix: a text that ends in a piece of [r] cannot be completed to [r] by a
    following copy of [new]. *)
Definition seam_free (r new : string) : bool :=
  forallb (fun q => match q with
                    | EmptyString => true
                    | _ => negb (startswith q new || startswith new q)
                    end)
          (suffixes r).

(** [str.isspace] on one ASCII character. *)
Definition isspace (c : ascii) : bool :=
  let n := nat_of_ascii c in
  (Nat.leb 9 n && Nat.leb n 13) || (Nat.leb 28 n && Nat.leb n 32).

Definition isdigit (c : ascii) : bool :=
  let n := nat_of_ascii c in Nat.leb 48 n && Nat.leb n 57.

Fixpoint lstrip (s : string) : string :=
  match s with
  | String c s' => if isspace c then lstrip s' else s
  | EmptyString => EmptyString
  end.

Fixpoint rstrip_by (f : ascii -> bool) (s : string) : string :=
  match s with
  | EmptyString => EmptyString
  | String c s' =>
      match rstrip_by f s' with
      | EmptyString => if f c then EmptyString else String c EmptyString
      | r => String c r
      end
  end.

(** [s.strip()]. *)
Definition strip (s : string) : string := rstrip_by isspace (lstrip s).

(** [s.split(sep)] on a one-character separator. *)
Fixpoint split_on (sep : ascii) (s : string) : list string :=
  match s with
  | EmptyString => [EmptyString]
  | String c s' =>
      if Ascii.eqb c sep then EmptyString :: split_on sep s'
      else match split_on sep s' with
           | w :: ws => String c w :: ws
           | [] => [String c EmptyString]
           end
  end.

(** [s.split()]: the maximal runs of non-space characters. *)
Fixpoint split_ws_aux (cur : string) (s : string) : list string :=
  match s with
  | EmptyString => match cur with EmptyString => [] | _ => [cur] end
  | String c s' =>
      if isspace c
      then match cur with
           | EmptyString => split_ws_aux EmptyString s'
           | _ => cur :: split_ws_aux EmptyString s'
           end
      else split_ws_aux (cur +:+ String c EmptyString) s'
  end.
Definition split_ws (s : string) : list string := split_ws_aux EmptyString s.

(** [f.readlines()] up to the line terminators, which [split()] drops anyway. *)
Definition readlines (s : string) : list string :=
  match s with
  | EmptyString => []
  | _ => let ls := split_on (ascii_of_nat 10) s in
         match last ls with
         | Some EmptyString => removelast ls
         | _ => ls
         end
  end.

(** The longest prefix of decimal digits and the rest. *)
Fixpoint span_digits (s : string) : string * string :=
  match s with
  | String c s' =>
      if isdigit c then let '(d, r) := span_digits s' in (String c d, r)
      else (EmptyString, s)
  | EmptyString => (EmptyString, EmptyString)
  end.

(** The value of [digit (["_"] digit)*], the digits of a Python integer
    literal: an underscore stands only between two digits.  [after_digit] tells
    whether the character before [s] was a digit. *)
Fixpoint digits_value (after_digit : bool) (acc : Z) (s : string) : option Z :=
  match s with
  | EmptyString => if after_digit then Some acc else None
  | String c s' =>
      if isdigit c
      then digits_value true (10 * acc + (Z.of_nat (nat_of_ascii c) - 48)) s'
      else if Ascii.eqb c "_" && after_digit
      then digits_value false acc s'
      else None
  end.

(** [int(s)] on a text without blanks around it: an optional sign and decimal
    digits; anything else is a [ValueError] ([None]). *)
Definition int_of_str (s : string) : option Z :=
  match s with
  | EmptyString => None
  | String c s' =>
      if Ascii.eqb c "-" then Z.opp <$> digits_value false 0 s'
      else if Ascii.eqb c "+" then digits_value false 0 s'
      else digits_value false 0 s
  end.

(** [s.lower()] on ASCII letters. *)
Definition lower_ascii (c : ascii) : ascii :=
  let n := nat_of_ascii c in
  if Nat.leb 65 n && Nat.leb n 90 then ascii_of_nat (n + 32) else c.
Fixpoint lower (s : string) : string :=
  match s with
  | EmptyString => EmptyString
  | String c s' => String (lower_ascii c) (lower s')
  end.

(** [repr] of a list of strings, as [CalledProcessError] prints its command
    (arguments without quotes or backslashes). *)
Definition repr_str (s : string) : string := "'" +:+ s +:+ "'".
Fixpoint join (sep : string) (l : list string) : string :=
  match l with
  | [] => EmptyString
  | [x] => x
  | x :: r => x +:+ sep +:+ join sep r
  end.
Definition repr_list (l : list string) : string :=
  "[" +:+ join ", " (map repr_str l) +:+ "]".

(** Whether the argument vector [l] starts with the words [p]. *)
Fixpoint list_prefix (p l : list string) : bool :=
  match p, l with
  | [], _ => true
  | a :: p', b :: l' => String.eqb a b && list_prefix p' l'
  | _ :: _, [] => false
  end.

(** ** Exceptions, outcomes and the program monad *)

Inductive level := DEBUG | INFO | WARNING | ERROR.

(** The classes of [Exception] the script can meet.  [SystemExit] is not an
    [Exception]: it is the [Exit] outcome below. *)
Inductive exn_class :=
| Exception | ValueError | TypeError | AttributeError | KeyError | IndexError
| EOFError | ZeroDivisionError | OSError | FileNotFoundError | FileExistsError
| PermissionError.

Inductive exn :=
| CalledProcessError (cmd : list string) (returncode : Z) (stderr : string)
| ShutilError (errors : list (string * string * string))
| PyError (c : exn_class) (msg : string).

(** [str(e)]. *)
Definition str_exn (e : exn) : string :=
  match e with
  | CalledProcessError cmd rc _ =>
      "Command '" +:+ repr_list cmd +:+ "' returned non-zero exit status "
        +:+ str_int rc +:+ "."
  | ShutilError errs =>
      repr_list (map (fun '(s, d, m) => "(" +:+ join ", " (map repr_str [s; d; m]) +:+ ")") errs)
  | PyError _ msg => msg
  end.

Definition is_permission_error (e : exn) : bool :=
  match e with PyError PermissionError _ => true | _ => false end.
Definition is_file_exists_error (e : exn) : bool :=
  match e with PyError FileExistsError _ => true | _ => false end.
Definition is_value_error (e : exn) : bool :=
  match e with PyError ValueError _ => true | _ => false end.
Definition is_called_process_error (e : exn) : bool :=
  match e with CalledProcessError _ _ _ => true | _ => false end.

Inductive outcome (A : Type) :=
| Ret (a : A)
| Raise (e : exn)
| Exit (code : Z).
Arguments Ret {A} a.
Arguments Raise {A} e.
Arguments Exit {A} code.

Definition is_ret {A} (o : outcome A) : bool :=
  match o with Ret _ => true | _ => false end.

(** The result of a library call that may raise. *)
Inductive res (A : Type) :=
| Ok (a : A)
| Err (e : exn).
Arguments Ok {A} a.
Arguments Err {A} e.

(** [subprocess.CompletedProcess]. *)
Record completed := Completed {
  returncode : Z;
  cp_stdout : string;
  cp_stderr : string
}.

(** What [subprocess.run] finds: the program ran to its end, or it could not
    be started, which raises an [OSError] of some class and never a
    [CalledProcessError]. *)
Inductive launched :=
| Started (c : completed)
| NotStarted (c : exn_class) (msg : string).

(** ** The host interface: every library call of the script *)

Class Host (OS : Type) := {
  (** running [argv] with an optional standard input *)
  spawn : list string -> option string -> OS -> launched * OS;
  os_path_isfile : string -> OS -> bool;
  os_path_exists : string -> OS -> bool;
  os_path_ismount : string -> OS -> bool;
  os_path_expanduser : string -> OS -> string;
  (** the entries of a directory, as [Path.iterdir] lists them *)
  path_iterdir : string -> OS -> res (list string);
  shutil_rmtree : string -> OS -> res unit * OS;
  os_makedirs : string -> OS -> res unit * OS;
  shutil_copytree : string -> string -> OS -> res unit * OS;
  urlretrieve : string -> string -> OS -> res unit * OS;
  os_chmod : string -> OS -> res unit * OS;
  (** [TemporaryDirectory()] and its [cleanup()] *)
  mkdtemp : OS -> res string * OS;
  tempdir_cleanup : string -> OS -> res unit * OS;
  (** [open(p).read()], [open(p, "w").write(s)], [os.remove] *)
  read_text : string -> OS -> res string;
  write_text : string -> string -> OS -> res unit * OS;
  os_remove : string -> OS -> res unit * OS;
  getuser : OS -> res string;
  os_cpu_count : OS -> Z;
  (** [f_frsize] and [f_bavail] of [os.statvfs] *)
  os_statvfs : string -> OS -> res (Z * Z);
  (** [traceback.format_exc()] while [e] is being handled *)
  format_exc : exn -> string;
  (** [str(Path(p))] *)
  pathstr : string -> string;
  (** [os.path.basename(urlsplit(url).path)] *)
  url_basename : string -> string
}.

(** The six [TemporaryDirectory] objects of [self], by name. *)
Record tempdirs := TempDirs {
  temp_dir : string;
  wimtemp_dir : string;
  drivers_dir : string;
  windows_dir : string;
  virtio_mount_dir : string;
  windows_mount_dir : string
}.

Section Program.
Context {OS : Type} {HOST : Host OS}.

Record world := World {
  host : OS;
  stdin : list string;                       (* the lines [input()] will read *)
  stdout : list string;                      (* what [print] wrote *)
  logs : list (level * string);              (* the calls of [logging] *)
  trace : list (list string * option Z);     (* commands run, with exit status *)
  self_dirs : tempdirs;                      (* the attributes of [self] *)
  mounted_isos : list string                 (* the local list of [create_custom_iso] *)
}.

Definition M (A : Type) : Type := world -> outcome A * world.

Definition ret {A} (a : A) : M A := fun w => (Ret a, w).
Definition bind {A B} (m : M A) (k : A -> M B) : M B :=
  fun w => match m w with
           | (Ret a, w') => k a w'
           | (Raise e, w') => (Raise e, w')
           | (Exit c, w') => (Exit c, w')
           end.
Definition raise {A} (e : exn) : M A := fun w => (Raise e, w).
(** [sys.exit(code)]. *)
Definition sys_exit {A} (code : Z) : M A := fun w => (Exit code, w).

#[global] Instance M_ret : MRet M := @ret.
#[global] Instance M_bind : MBind M := fun A B k m => bind m k.

(** [try: m  except <classes>: h]: [h e] is [None] when no clause matches [e].
    [SystemExit] is not an [Exception] and passes through. *)
Definition try_except {A} (m : M A) (h : exn -> option (M A)) : M A :=
  fun w => match m w with
           | (Raise e, w') => match h e with
                              | Some k => k w'
                              | None => (Raise e, w')
                              end
           | r => r
           end.

(** [try: m  finally: f]: [f] runs on every outcome of [m]; when [f] itself
    raises or exits, that replaces the outcome of [m]. *)
Definition try_finally {A} (m : M A) (f : M unit) : M A :=
  fun w => match m w with
           | (o, w') => match f w' with
                        | (Ret _, w'') => (o, w'')
                        | (Raise e, w'') => (Raise e, w'')
                        | (Exit c, w'') => (Exit c, w'')
                        end
           end.

(** [except Exception as e: h e]. *)
Definition except_Exception {A} (m : M A) (h : exn -> M A) : M A :=
  try_except m (fun e => Some (h e)).

Definition set_host (h : OS) (w : world) : world :=
  World h (stdin w) (stdout w) (logs w) (trace w) (self_dirs w) (mounted_isos w).
Definition set_stdin (l : list string) (w : world) : world :=
  World (host w) l (stdout w) (logs w) (trace w) (self_dirs w) (mounted_isos w).
Definition add_stdout (s : string) (w : world) : world :=
  World (host w) (stdin w) (stdout w ++ [s]) (logs w) (trace w) (self_dirs w) (mounted_isos w).
Definition add_log (l : level) (msg : string) (w : world) : world :=
  World (host w) (stdin w) (stdout w) (logs w ++ [(l, msg)]) (trace w) (self_dirs w)
        (mounted_isos w).
Definition add_trace (cmd : list string) (rc : option Z) (w : world) : world :=
  World (host w) (stdin w) (stdout w) (logs w) (trace w ++ [(cmd, rc)]) (self_dirs w)
        (mounted_isos w).
Definition set_dirs (d : tempdirs) (w : world) : world :=
  World (host w) (stdin w) (stdout w) (logs w) (trace w) d (mounted_isos w).
Definition set_mounted_isos (l : list string) (w : world) : world :=
  World (host w) (stdin w) (stdout w) (logs w) (trace w) (self_dirs w) l.

(** [logging.log(level, message)], [logging.error(message)]. *)
Definition log (l : level) (msg : string) : M unit := fun w => (Ret tt, add_log l msg w).

(** [print(s)]. *)
Definition print (s : string) : M unit := fun w => (Ret tt, add_stdout s w).

(** [input(prompt)]: the next line of standard input, [EOFError] at its end. *)
Definition input (prompt : string) : M string :=
  fun w => match stdin w with
           | l :: rest => (Ret l, set_stdin rest (add_stdout prompt w))
           | [] => (Raise (PyError EOFError "EOF when reading a line"), add_stdout prompt w)
           end.

(** A library call that reads the host. *)
Definition ask {A} (f : OS -> A) : M A := fun w => (Ret (f (host w)), w).
(** A library call that may raise and does not change the host. *)
Definition ask_res {A} (f : OS -> res A) : M A :=
  fun w => match f (host w) with
           | Ok a => (Ret a, w)
           | Err e => (Raise e, w)
           end.
(** A library call that may raise and may change the host. *)
Definition call {A} (f : OS -> res A * OS) : M A :=
  fun w => match f (host w) with
           | (Ok a, h) => (Ret a, set_host h w)
           | (Err e, h) => (Raise e, set_host h w)
           end.

Definition get_dirs : M tempdirs := fun w => (Ret (self_dirs w), w).
Definition put_dirs (d : tempdirs) : M unit := fun w => (Ret tt, set_dirs d w).

(** [subprocess.run(cmd, input=..., check=...)]: the command is recorded in the
    trace with its exit status; with [check=True] a non-zero status raises
    [CalledProcessError]. *)
Definition subprocess_run (cmd : list string) (inp : option string) (check : bool)
  : M completed :=
  fun w => match spawn cmd inp (host w) with
           | (NotStarted c msg, h) =>
               (Raise (PyError c msg), add_trace cmd None (set_host h w))
           | (Started c, h) =>
               let w' := add_trace cmd (Some (returncode c)) (set_host h w) in
               if check && negb (returncode c =? 0)%Z
               then (Raise (CalledProcessError cmd (returncode c) (cp_stderr c)), w')
               else (Ret c, w')
           end.

(** [subprocess.call(cmd)]. *)
Definition subprocess_call (cmd : list string) : M Z :=
  c ← subprocess_run cmd None false; mret (returncode c).

(** [subprocess.check_output(cmd).decode()]. *)
Definition subprocess_check_output (cmd : list string) : M string :=
  c ← subprocess_run cmd None true; mret (cp_stdout c).


(** [for x in l: body x]. *)
Fixpoint for_each {A} (l : list A) (body : A -> M unit) : M unit :=
  match l with
  | [] => mret tt
  | x :: r => body x;; for_each r body
  end.

(** [if b: m]. *)
Definition when (b : bool) (m : M unit) : M unit := if b then m else mret tt.

(** An argument that is either a [str] or a [Path] (held by its string). *)
Inductive pathlike :=
| PStr (s : string)
| PPath (s : string).

(** [Path(p)] as its string: a [Path] is kept, a [str] is normalised. *)
Definition to_Path (p : pathlike) : string :=
  match p with
  | PStr s => pathstr s
  | PPath s => s
  end.

(** ** The methods of [Stage1] *)

Definition VIRTIO_ISO_URL : string :=
  "https://fedorapeople.org/groups/virt/virtio-win/direct-downloads/latest-virtio/virtio-win.iso".
Definition LIBVIRT_CONFIG_PATH : string := "/etc/libvirt/libvirtd.conf".
Definition QEMU_CONFIG_PATH : string := "/etc/libvirt/qemu.conf".
Definition REQUIRED_PACKAGES : list string :=
  ["qemu-system-x86"; "libvirt-clients"; "libvirt-daemon-system";
   "libvirt-daemon-config-network"; "bridge-utils"; "virt-manager"; "ovmf"; "wimtools"].

Definition init_temp_dirs : M unit :=
  d1 ← call mkdtemp; d2 ← call mkdtemp; d3 ← call mkdtemp;
  d4 ← call mkdtemp; d5 ← call mkdtemp; d6 ← call mkdtemp;
  put_dirs (TempDirs d1 d2 d3 d4 d5 d6).

(** [fail]: log at ERROR level, then [sys.exit(1)]. *)
Definition fail {A} (msg : string) (exception : option exn) : M A :=
  match exception with
  | Some e =>
      log ERROR (msg +:+ ". Exception: " +:+ str_exn e +:+ ". Traceback: " +:+ format_exc e)
  | None => log ERROR msg
  end;;
  sys_exit 1.

Definition run_subprocess (cmd : list string) (fail_msg : string) : M unit :=
  try_except
    (_ ← subprocess_run cmd None true; mret tt)
    (fun e => match e with
              | CalledProcessError _ _ stderr =>
                  Some (log ERROR ("Command failed. Error: " +:+ stderr);;
                        raise (PyError Exception fail_msg))
              | _ => None
              end).

Definition sudo_tee_write (file_path content : string) : M unit :=
  except_Exception
    (process ← subprocess_run ["sudo"; "tee"; file_path] (Some content) true;
     if negb (returncode process =? 0)%Z
     then raise (PyError Exception ("Failed to write to " +:+ file_path +:+ " using sudo tee"))
     else mret tt)
    (fun e =>
       @fail unit ("Failed to modify " +:+ file_path +:+ ". Error: " +:+ str_exn e) None;;
       raise (PyError Exception ("Exiting due to failure in modifying " +:+ file_path))).

Definition sudo_cat_read (file_path : string) : M string :=
  except_Exception
    (process ← subprocess_run ["sudo"; "cat"; file_path] None true;
     mret (cp_stdout process))
    (fun e =>
       @fail unit ("Failed to read " +:+ file_path +:+ ". Error: " +:+ str_exn e) None;;
       raise (PyError Exception ("Exiting due to failure in reading " +:+ file_path))).

Definition is_mounted (path : string) : M bool := ask (os_path_ismount path).

Definition unmount (mount_point : pathlike) : M unit :=
  let mount_point := to_Path mount_point in
  let cmd := ["sudo"; "umount"; mount_point] in
  mounted ← is_mounted mount_point;
  if negb mounted
  then log WARNING (mount_point +:+ " is not mounted.")
  else
    try_except
      (run_subprocess cmd ("Failed to unmount " +:+ mount_point);;
       entries ← ask_res (path_iterdir mount_point);
       match entries with
       | _ :: _ =>
           fail ("Failed to unmount " +:+ mount_point +:+ ". The directory is not empty.") None
       | [] => mret tt
       end;;
       log INFO ("Successfully unmounted " +:+ mount_point +:+ "."))
      (fun e =>
         if is_permission_error e
         then Some (log ERROR ("Permission error occurred while unmounting " +:+ mount_point);;
                    fail ("Failed to unmount " +:+ mount_point +:+ " due to permission error.")
                         None)
         else Some (fail ("Failed to unmount " +:+ mount_point) (Some e))).

Definition cleanup_temp_dirs : M unit :=
  d ← get_dirs;
  for_each [temp_dir d; drivers_dir d; windows_dir d; virtio_mount_dir d; windows_mount_dir d]
    (fun name =>
       mounted ← is_mounted (pathstr name);
       when mounted (unmount (PPath (pathstr name)));;
       call (tempdir_cleanup name));;
  init_temp_dirs.

(** The two [isinstance(..., Path)] guards of the source follow the conversion
    to [Path] and never fire. *)
Definition mount_iso (iso_path mount_point : pathlike) : M unit :=
  let iso_path := to_Path iso_path in
  let mount_point := to_Path mount_point in
  iso_exists ← ask (os_path_exists iso_path);
  if negb iso_exists
  then log ERROR ("ISO path " +:+ iso_path +:+ " does not exist.")
  else
    mp_exists ← ask (os_path_exists mount_point);
    if negb mp_exists
    then log ERROR ("Mount point " +:+ mount_point +:+ " does not exist.")
    else
      let cmd := ["sudo"; "mount"; "-o"; "loop"; iso_path; mount_point] in
      except_Exception
        (run_subprocess cmd ("Failed to mount " +:+ iso_path +:+ " to " +:+ mount_point);;
         entries ← ask_res (path_iterdir mount_point);
         match entries with
         | [] =>
             fail ("Failed to mount " +:+ iso_path +:+ " to " +:+ mount_point
                     +:+ ". The directory is empty.") None
         | _ :: _ => mret tt
         end;;
         log INFO ("Successfully mounted " +:+ iso_path +:+ " to " +:+ mount_point +:+ "."))
        (fun e =>
           e1 ← ask (os_path_exists iso_path);
           e2 ← ask (os_path_exists mount_point);
           log ERROR ("Debug Info: ISO Path exists: " +:+ str_bool e1
                        +:+ ", Mount Point exists: " +:+ str_bool e2);;
           fail ("Failed to mount " +:+ iso_path +:+ " to " +:+ mount_point) (Some e)).

Definition mount_wim (wim_path : string) (index : Z) : M unit :=
  d ← get_dirs;
  log INFO ("Mounting WIM image from " +:+ wim_path +:+ " at index " +:+ str_int index
              +:+ " to " +:+ wimtemp_dir d);;
  wim_exists ← ask (os_path_exists wim_path);
  if negb wim_exists
  then log ERROR ("WIM file " +:+ wim_path +:+ " does not exist.")
  else
    let cmd := ["sudo"; "wimmountrw"; wim_path; str_int index; wimtemp_dir d] in
    try_except
      (_ ← subprocess_run cmd None true;
       log INFO "Successfully mounted WIM image.")
      (fun e => match e with
                | CalledProcessError _ _ stderr =>
                    Some (log ERROR ("Failed to mount WIM image. Error: " +:+ strip stderr))
                | _ => None
                end).

Definition unmount_wim : M unit :=
  d ← get_dirs;
  run_subprocess ["sudo"; "wimunmount"; "--commit"; wimtemp_dir d] "Failed to unmount WIM image.".

(** [copy_tree]: the last [except Exception] clause iterates [e.args[0]] as a
    list of triples; that is what [shutil.Error] carries.  The other exceptions
    of [copytree] are [OSError]s, whose [args[0]] is the error number: the
    iteration raises [TypeError] inside the handler.  The bare [except:] after
    it only sees what is no [Exception] and is never reached from [copytree]. *)
Definition copy_tree (src dest : string) : M unit :=
  try_except
    (call (shutil_copytree src dest))
    (fun e =>
       if is_file_exists_error e
       then Some (log ERROR (dest +:+ " already exists."))
       else if is_permission_error e
       then Some (log ERROR ("Do not have the necessary permissions to copy to " +:+ dest +:+ "."))
       else match e with
            | ShutilError errors =>
                Some (for_each errors
                        (fun '(src, dst, msg) =>
                           log ERROR ("Error occurred when copying " +:+ src +:+ " to "
                                        +:+ dst +:+ ": " +:+ msg)))
            | _ => Some (raise (PyError TypeError "'int' object is not iterable"))
            end).

(** [all(subprocess.call([...]) == 0 for package in packages)]: stops at the
    first package whose query fails. *)
Fixpoint all_installed (packages : list string) : M bool :=
  match packages with
  | [] => mret true
  | package :: rest =>
      rc ← subprocess_call ["dpkg-query"; "-W"; "-f=${Status}"; package];
      if (rc =? 0)%Z then all_installed rest else mret false
  end.

Definition install_packages (packages : list string) : M unit :=
  log INFO "Starting package installation.";;
  log INFO "Checking if required packages are already installed...";;
  all_ok ← all_installed packages;
  (if negb all_ok
   then log INFO "Installing required packages...";;
        run_subprocess ["sudo"; "apt"; "update"] "Failed to update package list.";;
        run_subprocess (["sudo"; "apt"; "install"; "-y"] ++ packages)
                       "Failed to install packages."
   else log INFO "All required packages are already installed.");;
  log INFO "Finished package installation.".

Definition get_redirected_url (url : string) : M string :=
  except_Exception
    (log DEBUG ("Debug: Getting redirected URL for " +:+ url +:+ ".");;
     out ← subprocess_check_output
             ["curl"; "-sIL"; "-o"; "/dev/null"; "-w"; "%{url_effective}"; url];
     mret (strip out))
    (fun e =>
       log ERROR ("Error in get_redirected_url: " +:+ str_exn e);;
       fail ("Failed to get redirected URL. Error: " +:+ str_exn e) (Some e)).

Definition download_file (url dest : string) : M unit :=
  let dest_path := pathstr dest in
  except_Exception
    (log DEBUG ("Debug: Downloading file from " +:+ url +:+ " to " +:+ dest_path +:+ ".");;
     call (urlretrieve url dest_path);;
     present ← ask (os_path_exists dest_path);
     when (negb present)
          (fail ("Download failed, file " +:+ dest_path +:+ " does not exist.") None);;
     log INFO ("Successfully downloaded from " +:+ url +:+ " to " +:+ dest_path +:+ "."))
    (fun e =>
       log ERROR ("Error in download_file: " +:+ str_exn e);;
       fail ("Failed to download " +:+ dest_path +:+ ". Error: " +:+ str_exn e) (Some e)).

Definition prepare_directories_for_custom_iso : M unit :=
  d ← get_dirs;
  for_each [temp_dir d; drivers_dir d; windows_dir d; virtio_mount_dir d;
            windows_mount_dir d; wimtemp_dir d]
    (fun name =>
       let dir_path := pathstr name in
       present ← ask (os_path_exists dir_path);
       when present (call (shutil_rmtree dir_path));;
       call (os_makedirs dir_path)).

Definition copy_virtio_drivers (virtio_iso : string) : M unit :=
  log INFO "Copying over VirtIO drivers.";;
  d ← get_dirs;
  except_Exception
    (mount_iso (PStr virtio_iso) (PStr (virtio_mount_dir d));;
     copy_tree (virtio_mount_dir d) (drivers_dir d);;
     unmount (PStr (virtio_mount_dir d)))
    (fun e =>
       log ERROR ("Error in copy_virtio_drivers: " +:+ str_exn e);;
       fail ("Failed to copy VirtIO drivers. Error: " +:+ str_exn e) (Some e)).

Definition copy_windows_files (win_iso : string) : M unit :=
  log INFO "Copying over Windows files.";;
  d ← get_dirs;
  except_Exception
    (mount_iso (PStr win_iso) (PStr (windows_mount_dir d));;
     copy_tree (windows_mount_dir d) (windows_dir d);;
     unmount (PStr (windows_mount_dir d)))
    (fun e =>
       log ERROR ("Error in copy_windows_files: " +:+ str_exn e);;
       fail ("Failed to copy Windows files. Error: " +:+ str_exn e) (Some e)).

Definition add_drivers_to_windows_boot_images : M unit :=
  log INFO "Adding drivers to Windows boot images.";;
  for_each [1%Z; 2%Z]
    (fun image_index =>
       d ← get_dirs;
       mount_wim (windows_dir d +:+ "/sources/boot.wim") image_index;;
       copy_tree (drivers_dir d) (wimtemp_dir d);;
       unmount_wim).

Definition generate_custom_iso : M string :=
  log INFO "Generating custom ISO.";;
  d ← get_dirs;
  let mkisofs_command :=
    ["sudo"; "mkisofs"; "-allow-limited-size"; "-o"; "CustomWin10.iso"; "-b";
     "boot/etfsboot.com"; "-no-emul-boot"; "-boot-load-seg"; "0x07C0"; "-boot-load-size";
     "8"; "-iso-level"; "2"; "-J"; "-l"; "-D"; "-N"; "-joliet-long"; "-relaxed-filenames";
     "-V"; "Custom Win10"; "-allow-lowercase"; "-hide"; "boot.catalog"; windows_dir d] in
  run_subprocess mkisofs_command "Failed to create custom ISO.";;
  log INFO "Custom ISO generated successfully.";;
  mret "CustomWin10.iso".

(** [mounted_isos.append(x)] on the local list. *)
Definition mounted_isos_append (x : string) : M unit :=
  fun w => (Ret tt, set_mounted_isos (mounted_isos w ++ [x]) w).

Definition create_custom_iso (win_iso virtio_iso : string) : M string :=
  (fun w => (Ret tt, set_mounted_isos [] w));;
  try_finally
    (except_Exception
       (prepare_directories_for_custom_iso;;
        copy_virtio_drivers virtio_iso;;
        d ← get_dirs;
        mounted_isos_append (virtio_mount_dir d);;
        copy_windows_files win_iso;;
        d ← get_dirs;
        mounted_isos_append (windows_mount_dir d);;
        add_drivers_to_windows_boot_images;;
        generate_custom_iso)
       (fun e => fail ("Failed to create custom ISO. Error: " +:+ str_exn e) (Some e)))
    (fun w => for_each (mounted_isos w) (fun iso => unmount (PStr iso)) w).

Definition handle_user_provided_iso (provided_win_iso : string) : M string :=
  mret provided_win_iso.

Definition create_iso_with_virtio_from_user_iso (provided_win_iso : string) : M string :=
  log INFO "Create custom ISO with VirtIO drivers.";;
  cleanup_temp_dirs;;
  except_Exception
    (actual_virtio_url ← get_redirected_url VIRTIO_ISO_URL;
     let virtio_iso := url_basename actual_virtio_url in
     download_file actual_virtio_url virtio_iso;;
     custom_iso_path ← create_custom_iso provided_win_iso virtio_iso;
     mret custom_iso_path)
    (fun e => fail ("Failed to create custom ISO. Error: " +:+ str_exn e) (Some e)).

Definition handle_downloaded_iso : M string :=
  log INFO "Starting to handle downloaded ISO.";;
  download_file "https://raw.githubusercontent.com/ElliotKillick/Mido/main/Mido.sh" "Mido.sh";;
  log INFO "Custom ISO created successfully.";;
  call (os_chmod "Mido.sh");;
  rc ← subprocess_call ["./Mido.sh"; "win10x64"];
  when (negb (rc =? 0)%Z) (fail "Failed to download Windows 10 ISO." None);;
  let downloaded_win_iso := "win10x64.iso" in
  present ← ask (os_path_isfile downloaded_win_iso);
  when (negb present) (fail (downloaded_win_iso +:+ " not found. Something went wrong.") None);;
  let virtio_iso_url := VIRTIO_ISO_URL in
  actual_virtio_url ← get_redirected_url virtio_iso_url;
  let virtio_iso := url_basename actual_virtio_url in
  download_file actual_virtio_url virtio_iso;;
  custom_iso_path ← create_custom_iso downloaded_win_iso virtio_iso;
  print "Custom ISO Created";;
  mret custom_iso_path.

(** *** The ISO prompt *)

Definition ISO_CHOICES : list string := ["1"; "2"; "3"].

Definition str_mem (s : string) (l : list string) : bool :=
  existsb (String.eqb s) l.

(** One round of the [while True] loop: [Some choice] on [break], [None] when
    the [ValueError] was caught and printed. *)
Definition ask_choice : M (option string) :=
  try_except
    (choice ← input "Select an option: ";
     if negb (str_mem choice ISO_CHOICES)
     then raise (PyError ValueError "Invalid choice, please try again.")
     else mret (Some choice))
    (fun e => if is_value_error e then Some (print (str_exn e);; mret None) else None).

(** The loop.  Every pass reads one line, and [input] raises [EOFError] once
    standard input is used up, so the loop makes at most one pass more than
    there are lines: with [rounds] the number of lines, the last branch below
    is never reached (lemma [choice_loop_rounds]). *)
Fixpoint choice_loop (rounds : nat) : M string :=
  r ← ask_choice;
  match r with
  | Some choice => mret choice
  | None => match rounds with
            | S n => choice_loop n
            | O => raise (PyError EOFError "EOF when reading a line")
            end
  end.

Definition prompt_for_iso_choice : M (string * string * string * string) :=
  print "1. Use your own Windows 10 ISO that has VirtIO drivers installed.";;
  print "2. Use your own Windows 10 ISO that needs to have VirtIO drivers installed.";;
  print "3. Securely download a new Windows 10 ISO and install VirtIO drivers.";;
  choice ← (fun w => choice_loop (length (stdin w)) w);
  iso_ref ←
    (if str_mem choice ["1"; "2"]
     then
       iso_ref ← input "Please enter the path to the existing ISO: ";
       iso_ref ← ask (os_path_expanduser iso_ref);
       present ← ask (os_path_isfile iso_ref);
       when (negb present) (fail (iso_ref +:+ " does not exist. Exiting.") None);;
       mret iso_ref
     else mret EmptyString);
  let skip_ref := if String.eqb choice "1" then "true" else "false" in
  let download_ref := if String.eqb choice "2" then "false" else "true" in
  mret (iso_ref, skip_ref, download_ref, choice).

(** *** Host configuration *)

Definition add_user_to_libvirt_and_kvm_groups : M unit :=
  except_Exception
    (user ← ask_res getuser;
     run_subprocess ["sudo"; "usermod"; "-a"; "-G"; "kvm,libvirt"; user]
                    "Failed to add the user to kvm and libvirt groups.")
    (fun e => fail ("Failed to add user to kvm and libvirt groups. Error: " +:+ str_exn e) None).

Definition manage_libvirtd_service (actions : list string) : M unit :=
  for_each actions
    (fun action =>
       run_subprocess ["sudo"; "systemctl"; action; "libvirtd"]
                      ("Failed to " +:+ action +:+ " the libvirtd service.")).

Definition restart_libvirtd_service : M unit := manage_libvirtd_service ["restart"].

Definition enable_virsh_default_network : M unit :=
  run_subprocess ["sudo"; "virsh"; "net-autostart"; "default"]
                 "Failed to enable the default network for virsh.".

(** [backup_file]: [subprocess.run] is called without [check=True], so the exit
    status of [cp] is not looked at. *)
Definition backup_file (file_path : string) : M unit :=
  except_Exception
    (present ← ask (os_path_exists file_path);
     if (present : bool)
     then
       let backup_path := file_path +:+ ".backup" in
       _ ← subprocess_run ["sudo"; "cp"; file_path; backup_path] None false;
       log INFO ("Backup of " +:+ file_path +:+ " created.")
     else log WARNING ("File " +:+ file_path +:+ " does not exist, skipping backup."))
    (fun e => fail ("Failed to create backup of " +:+ file_path +:+ ". Error: " +:+ str_exn e) None).

Definition modify_config (file_path search_string replace_string : string) : M unit :=
  except_Exception
    (filedata ← sudo_cat_read file_path;
     if str_in search_string filedata
     then
       let filedata := str_replace filedata search_string replace_string in
       sudo_tee_write file_path filedata;;
       log INFO ("Modified " +:+ file_path +:+ ".")
     else
       log WARNING ("Search string '" +:+ search_string +:+ "' not found in " +:+ file_path))
    (fun e =>
       @fail unit ("Failed to modify " +:+ file_path +:+ ". Error: " +:+ str_exn e) None;;
       raise (PyError Exception ("Exiting due to failure in modifying " +:+ file_path))).

Definition additional_settings : string :=
  "log_filters=" +:+ dq +:+ "3:qemu 1:libvirt" +:+ dq +:+ nl +:+
  "log_outputs=" +:+ dq +:+ "2:file:/var/log/libvirt/libvirtd.log" +:+ dq +:+ nl.

Definition modify_and_backup_libvirt_config : M unit :=
  except_Exception
    (let libvirt_config_path := "/etc/libvirt/libvirtd.conf" in
     let backup_path := libvirt_config_path +:+ ".backup" in
     log INFO "Checking if libvirt configuration file exists...";;
     present ← ask (os_path_isfile libvirt_config_path);
     when (negb present) (fail (libvirt_config_path +:+ " not found. Exiting.") None);;
     log INFO "Checking if backup file already exists...";;
     has_backup ← ask (os_path_isfile backup_path);
     (if negb has_backup
      then log INFO "Backup file does not exist. Creating backup...";;
           backup_file libvirt_config_path
      else log INFO "Backup file already exists. Skipping backup.");;
     log INFO "Modifying libvirt configuration...";;
     modify_config libvirt_config_path
       ("#unix_sock_group = " +:+ dq +:+ "libvirt" +:+ dq)
       ("unix_sock_group = " +:+ dq +:+ "libvirt" +:+ dq);;
     modify_config libvirt_config_path
       ("#unix_sock_rw_perms = " +:+ dq +:+ "0770" +:+ dq)
       ("unix_sock_rw_perms = " +:+ dq +:+ "0770" +:+ dq);;
     log INFO "Checking if additional settings already exist in libvirt configuration...";;
     file_contents ← ask_res (read_text libvirt_config_path);
     let additional_settings_exist :=
       forallb (fun line => str_in line file_contents)
               (split_on (ascii_of_nat 10) (strip additional_settings)) in
     (if negb additional_settings_exist
      then
        log INFO "Appending additional settings to libvirt configuration...";;
        call (write_text "/tmp/additional_libvirt_settings" additional_settings);;
        text ← ask_res (read_text "/tmp/additional_libvirt_settings");
        _ ← subprocess_run ["sudo"; "tee"; "-a"; libvirt_config_path] (Some text) true;
        call (os_remove "/tmp/additional_libvirt_settings")
      else
        log INFO "Additional settings already exist in libvirt configuration. Skipping.");;
     log INFO "Libvirt configuration successfully modified and backed up.")
    (fun e =>
       @fail unit ("Failed to modify and backup libvirt configuration. Error: " +:+ str_exn e)
             None;;
       raise (PyError Exception
                "Exiting due to failure in modifying and backing up libvirt configuration")).

Definition modify_and_backup_qemu_config : M unit :=
  except_Exception
    (let qemu_config_path := "/etc/libvirt/qemu.conf" in
     let backup_path := qemu_config_path +:+ ".backup" in
     log INFO "Checking if qemu configuration file exists...";;
     present ← ask (os_path_isfile qemu_config_path);
     when (negb present) (fail (qemu_config_path +:+ " not found. Exiting.") None);;
     log INFO "Checking if backup file already exists...";;
     has_backup ← ask (os_path_isfile backup_path);
     (if negb has_backup
      then log INFO "Backup file does not exist. Creating backup...";;
           backup_file qemu_config_path
      else log INFO "Backup file already exists. Skipping backup.");;
     log INFO "Modifying qemu configuration...";;
     user ← ask_res getuser;
     modify_config qemu_config_path
       ("#user = " +:+ dq +:+ "root" +:+ dq)
       ("user = " +:+ dq +:+ user +:+ dq);;
     modify_config qemu_config_path
       ("#group = " +:+ dq +:+ "root" +:+ dq)
       ("group = " +:+ dq +:+ "libvirt" +:+ dq);;
     log INFO "qemu configuration successfully modified and backed up.")
    (fun e =>
       @fail unit ("Failed to modify and backup qemu configuration. Error: " +:+ str_exn e)
             None;;
       raise (PyError Exception
                "Exiting due to failure in modifying and backing up qemu configuration")).

Definition setup_libvirt : M unit :=
  log INFO "Configuring libvirt.";;
  add_user_to_libvirt_and_kvm_groups;;
  modify_and_backup_libvirt_config;;
  manage_libvirtd_service ["enable"; "start"];;
  modify_and_backup_qemu_config;;
  restart_libvirtd_service;;
  enable_virsh_default_network;;
  log INFO "libvirt configured successfully.".

(** *** Resources *)

(** The dict comprehension over the lines of [/proc/meminfo]: the key is the
    first field without trailing colons, the value [int] of the second field;
    a later line overrides an earlier one with the same key. *)
Fixpoint parse_meminfo (lines : list string) (meminfo : gmap string Z) : res (gmap string Z) :=
  match lines with
  | [] => Ok meminfo
  | i :: rest =>
      match split_ws i with
      | [] | [_] => Err (PyError IndexError "list index out of range")
      | k :: v :: _ =>
          match int_of_str v with
          | None => Err (PyError ValueError
                           ("invalid literal for int() with base 10: " +:+ repr_str v))
          | Some n => parse_meminfo rest (<[rstrip_by (Ascii.eqb ":") k := n]> meminfo)
          end
      end
  end.

Definition resource_assessment : M (Z * Z * Z) :=
  except_Exception
    (text ← ask_res (read_text "/proc/meminfo");
     meminfo ← ask_res (fun _ => parse_meminfo (readlines text) ∅);
     mem_available ←
       match meminfo !! "MemAvailable" with
       | Some n => mret n
       | None => raise (PyError KeyError "'MemAvailable'")
       end;
     let available_ram_mb := (mem_available / 1024)%Z in
     available_cpus ← ask os_cpu_count;
     '(f_frsize, f_bavail) ← ask_res (os_statvfs "/var/lib/libvirt/images/");
     let available_disk_gb := ((f_frsize * f_bavail) / (1024 * 1024 * 1024))%Z in
     mret (available_ram_mb, available_cpus, available_disk_gb))
    (fun e => fail ("Failed to assess system resources. Error: " +:+ str_exn e) None).

Definition auto_or_manual_config : M string :=
  input "Do you want to automatically allocate resources? (y/n): ".

Definition auto_allocation (available_ram_mb available_cpus available_disk_gb : Z)
  : M (Z * Z * Z) :=
  except_Exception
    (log INFO "Automatically allocating resources...";;
     let allocated_ram := (available_ram_mb / 2)%Z in
     let allocated_cpus := (available_cpus / 2)%Z in
     let allocated_disk := (available_disk_gb / 2)%Z in
     log INFO ("Allocated RAM: " +:+ str_int allocated_ram +:+ "MB");;
     log INFO ("Allocated CPU cores: " +:+ str_int allocated_cpus);;
     log INFO ("Allocated Disk Space: " +:+ str_int allocated_disk +:+ "GB");;
     mret (allocated_ram, allocated_cpus, allocated_disk))
    (fun e => fail ("Failed to automatically allocate resources. Error: " +:+ str_exn e) None).

(** [int(input(prompt))]. *)
Definition input_int (prompt : string) : M Z :=
  s ← input prompt;
  match int_of_str (strip s) with
  | Some n => mret n
  | None => raise (PyError ValueError
                     ("invalid literal for int() with base 10: " +:+ repr_str s))
  end.

(** [a > x or b > y or c > z] on the allocation and the availability. *)
Definition exceeds (allocated_ram allocated_cpus allocated_disk
                    available_ram_mb available_cpus available_disk_gb : Z) : bool :=
  (allocated_ram >? available_ram_mb)%Z || (allocated_cpus >? available_cpus)%Z
  || (allocated_disk >? available_disk_gb)%Z.

Definition manual_allocation (available_ram_mb available_cpus available_disk_gb : Z)
  : M (Z * Z * Z) :=
  except_Exception
    (allocated_ram ←
       input_int ("Enter the amount of RAM to allocate (suggested: "
                    +:+ str_int (available_ram_mb / 2) +:+ "MB): ");
     allocated_cpus ←
       input_int ("Enter the number of CPU cores to allocate (suggested: "
                    +:+ str_int (available_cpus / 2) +:+ "): ");
     allocated_disk ←
       input_int ("Enter the amount of disk space to allocate (suggested: "
                    +:+ str_int (available_disk_gb / 2) +:+ "GB): ");
     when (exceeds allocated_ram allocated_cpus allocated_disk
                   available_ram_mb available_cpus available_disk_gb)
          (fail "Invalid resource allocation." None);;
     mret (allocated_ram, allocated_cpus, allocated_disk))
    (fun e => fail ("Failed to manually allocate resources. Error: " +:+ str_exn e) None).

Definition validate_allocation (allocated_ram allocated_cpus allocated_disk
                                available_ram_mb available_cpus available_disk_gb : Z)
  : M unit :=
  when (exceeds allocated_ram allocated_cpus allocated_disk
                available_ram_mb available_cpus available_disk_gb)
       (fail "Invalid resource allocation." None).

(** *** Firmware and CPU topology *)

(** The multi-line regular expression search for a line [ID=...] and its
    group 1: the rest of the first line that starts with [ID=]. *)
Definition re_search_ID (text : string) : option string :=
  match filter (fun line => Is_true (startswith "ID=" line)) (split_on (ascii_of_nat 10) text) with
  | line :: _ => Some (str_drop 3 line)
  | [] => None
  end.

Definition SUPPORTED_DISTROS : list string := ["ubuntu"; "pop"; "debian"; "linuxmint"].
Definition OVMF_CODE : string := "/usr/share/OVMF/OVMF_CODE_4M.fd".

Definition get_uefi_path : M string :=
  text ← ask_res (read_text "/etc/os-release");
  match re_search_ID text with
  | None => raise (PyError AttributeError "'NoneType' object has no attribute 'group'")
  | Some DISTRO_NAME =>
      if str_mem DISTRO_NAME SUPPORTED_DISTROS
      then mret OVMF_CODE
      else fail "Unsupported Linux distribution for UEFI firmware." None
  end.

(** The regular expression search for a label, optional blanks and a group
    of digits: at the first place where the label is followed by blanks and at
    least one digit, the digits. *)
Fixpoint re_search_field (label text : string) : option string :=
  let here :=
    if startswith label text
    then match fst (span_digits (lstrip (str_drop (String.length label) text))) with
         | EmptyString => None
         | d => Some d
         end
    else None in
  match here with
  | Some d => Some d
  | None => match text with
            | EmptyString => None
            | String _ text' => re_search_field label text'
            end
  end.

Definition int_field (label text : string) : M Z :=
  match re_search_field label text with
  | None => raise (PyError AttributeError "'NoneType' object has no attribute 'group'")
  | Some d => match digits_value false 0 d with
              | Some n => mret n
              | None => raise (PyError ValueError "invalid literal for int()")
              end
  end.

Definition get_cpu_topology : M (Z * Z * Z) :=
  lscpu_output ← subprocess_check_output ["lscpu"];
  threads_per_core ← int_field "Thread(s) per core:" lscpu_output;
  sockets ← int_field "Socket(s):" lscpu_output;
  numa_nodes ← int_field "NUMA node(s):" lscpu_output;
  mret (threads_per_core, sockets, numa_nodes).

(** [a // b]. *)
Definition floordiv (a b : Z) : M Z :=
  if (b =? 0)%Z
  then raise (PyError ZeroDivisionError "integer division or modulo by zero")
  else mret (a / b)%Z.

Definition create_vm (vm_name iso_path : string) : M unit :=
  log INFO ("Attempting to create VM with name: " +:+ vm_name +:+ ", iso_path: " +:+ iso_path);;
  UEFI_PATH ← get_uefi_path;
  present ← ask (os_path_isfile UEFI_PATH);
  when (negb present) (fail ("UEFI firmware not found at specified path: " +:+ UEFI_PATH) None);;
  '(threads_per_core, sockets, numa_nodes) ← get_cpu_topology;
  '(available_ram_mb, available_cpus, available_disk_gb) ← resource_assessment;
  auto_allocate ← auto_or_manual_config;
  '(allocated_ram, allocated_cpus, allocated_disk) ←
    (if String.eqb (lower auto_allocate) "y"
     then auto_allocation available_ram_mb available_cpus available_disk_gb
     else manual_allocation available_ram_mb available_cpus available_disk_gb);
  validate_allocation allocated_ram allocated_cpus allocated_disk
                      available_ram_mb available_cpus available_disk_gb;;
  q ← floordiv allocated_cpus threads_per_core;
  cores ← floordiv q sockets;
  let virt_install_cmd :=
    ["sudo"; "virt-install";
     "--name"; vm_name;
     "--ram"; str_int allocated_ram;
     "--vcpus"; str_int allocated_cpus;
     "--cpu"; "host,topology.sockets=" +:+ str_int sockets +:+ ",topology.cores="
              +:+ str_int cores +:+ ",topology.threads=" +:+ str_int threads_per_core;
     "--os-type"; "windows";
     "--os-variant"; "win10";
     "--network"; "network=default";
     "--graphics"; "spice";
     "--cdrom"; iso_path;
     "--disk"; "path=/var/lib/libvirt/images/" +:+ vm_name +:+ ".img,size="
               +:+ str_int allocated_disk
               +:+ ",bus=scsi,format=qcow2,cache=writeback,discard=unmap";
     "--controller"; "type=scsi,model=virtio-scsi";
     "--machine"; "type=pc-q35-6.2";
     "--boot"; "uefi=" +:+ UEFI_PATH +:+ ",cdrom,hd";
     "--memballoon"; "model=virtio"] in
  run_subprocess virt_install_cmd "Failed to create the VM.";;
  log INFO ("Successfully created VM with name: " +:+ vm_name).

(** *** The driver *)

(** The [if]/[elif]/[else] chain of [main] over the returned choice. *)
Inductive iso_branch := OwnIso | InjectDrivers | DownloadIso | InvalidChoice.

Definition main_branch (user_choice : string) : iso_branch :=
  if String.eqb user_choice "1" then OwnIso
  else if String.eqb user_choice "2" then InjectDrivers
  else if String.eqb user_choice "3" then DownloadIso
  else InvalidChoice.

Definition handle_choice (user_choice provided_win_iso : string) : M string :=
  match main_branch user_choice with
  | OwnIso => handle_user_provided_iso provided_win_iso
  | InjectDrivers => create_iso_with_virtio_from_user_iso provided_win_iso
  | DownloadIso => handle_downloaded_iso
  | InvalidChoice => fail "Invalid choice." None
  end.

Definition main : M unit :=
  log INFO "Starting the main sequence of the script.";;
  log INFO "Prompting for ISO choice.";;
  '(provided_win_iso, _, _, user_choice) ← prompt_for_iso_choice;
  log INFO "Installing required packages.";;
  install_packages REQUIRED_PACKAGES;;
  log INFO "Handling user's ISO choice.";;
  final_win_iso_path ← handle_choice user_choice provided_win_iso;
  setup_libvirt;;
  create_vm "MyVM" final_win_iso_path.

(** [stage1 = Stage1(); stage1.main()]. *)
Definition script : M unit := init_temp_dirs;; main.

(** The exit status of the interpreter: 0 after a normal return, 1 after an
    uncaught exception, the argument of [sys.exit] otherwise. *)
Definition exit_status {A} (o : outcome A) : Z :=
  match o with
  | Ret _ => 0
  | Raise _ => 1
  | Exit code => code
  end.

End Program.

Arguments world OS : clear implicits.
Arguments M OS A : clear implicits.

(** ** The vocabulary of the command trace

    Three commands are run without their exit status deciding the fate of the
    process: [dpkg-query] (a non-zero status is the answer "not installed"),
    the [sudo cp] of the backup (run without [check=True]) and [sudo wimmountrw]
    (its failure is caught and logged). *)

Definition unchecked (argv : list string) : bool :=
  list_prefix ["dpkg-query"] argv
  || list_prefix ["sudo"; "cp"] argv
  || list_prefix ["sudo"; "wimmountrw"] argv.

(** An entry of the trace that did not fail: a started command that exited
    with status 0, or one of the unchecked commands with any status. *)
Definition event_ok (ev : list string * option Z) : bool :=
  match ev with
  | (argv, Some rc) => (rc =? 0)%Z || unchecked argv
  | (_, None) => false
  end.

Definition clean (t : list (list string * option Z)) : Prop :=
  Forall (fun ev => event_ok ev = true) t.

Section Specs.
Context {OS : Type} {HOST : Host OS}.

(** [spec m Q]: [m] exits only with status 1; when it returns, a clean trace
    stays clean; and the same holds when it raises an exception that [Q]
    accepts.  With [Q] empty this says: whenever a checked command has failed
    under [m], [m] has not returned. *)
Definition spec {A} (m : M OS A) (Q : exn -> Prop) : Prop :=
  forall w, match m w with
            | (Ret _, w') => clean (trace w) -> clean (trace w')
            | (Raise e, w') => Q e -> clean (trace w) -> clean (trace w')
            | (Exit c, _) => c = 1%Z
            end.

Definition guarded {A} (m : M OS A) : Prop := spec m (fun _ => False).

(** [fatal m]: [m] never returns, and exits only with status 1. *)
Definition fatal {A} (m : M OS A) : Prop :=
  forall w, match m w with
            | (Ret _, _) => False
            | (Raise _, _) => True
            | (Exit c, _) => c = 1%Z
            end.

End Specs.

(** ** A simulated host

    A small file system (text files, disk images, directories, a mount table)
    and the external tools the script runs.  A command whose argument vector
    starts with one of [sim_failing] exits with status 1 and does nothing; a
    copy into a directory of [sim_full] raises [OSError]. *)

Record sim := Sim {
  sim_files : gmap string string;            (* text files *)
  sim_images : gmap string (list string);    (* disk images: their top-level entries *)
  sim_dirs : gmap string (list string);      (* directories: their entries *)
  sim_mounts : gmap string string;           (* mount point ↦ mounted image *)
  sim_web : gmap string (list string);       (* URL ↦ entries of the downloaded image *)
  sim_failing : list (list string);           (* commands that exit with status 1 *)
  sim_full : list string;                     (* directories with no space left *)
  sim_user : string;
  sim_cpus : Z;
  sim_bavail : Z;
  sim_lscpu : string;
  sim_next_tmp : nat
}.

Module SimHost.

Definition with_files (f : gmap string string) (s : sim) : sim :=
  Sim f (sim_images s) (sim_dirs s) (sim_mounts s) (sim_web s) (sim_failing s)
      (sim_full s) (sim_user s) (sim_cpus s) (sim_bavail s) (sim_lscpu s) (sim_next_tmp s).
Definition with_images (i : gmap string (list string)) (s : sim) : sim :=
  Sim (sim_files s) i (sim_dirs s) (sim_mounts s) (sim_web s) (sim_failing s)
      (sim_full s) (sim_user s) (sim_cpus s) (sim_bavail s) (sim_lscpu s) (sim_next_tmp s).
Definition with_dirs (d : gmap string (list string)) (s : sim) : sim :=
  Sim (sim_files s) (sim_images s) d (sim_mounts s) (sim_web s) (sim_failing s)
      (sim_full s) (sim_user s) (sim_cpus s) (sim_bavail s) (sim_lscpu s) (sim_next_tmp s).
Definition with_mounts (m : gmap string string) (s : sim) : sim :=
  Sim (sim_files s) (sim_images s) (sim_dirs s) m (sim_web s) (sim_failing s)
      (sim_full s) (sim_user s) (sim_cpus s) (sim_bavail s) (sim_lscpu s) (sim_next_tmp s).
Definition with_next_tmp (n : nat) (s : sim) : sim :=
  Sim (sim_files s) (sim_images s) (sim_dirs s) (sim_mounts s) (sim_web s) (sim_failing s)
      (sim_full s) (sim_user s) (sim_cpus s) (sim_bavail s) (sim_lscpu s) n.

Definition fails (argv : list string) (s : sim) : bool :=
  existsb (fun p => list_prefix p argv) (sim_failing s).

Definition done_ok (out : string) : launched := Started (Completed 0 out EmptyString).
Definition done_err (rc : Z) (err : string) : launched := Started (Completed rc EmptyString err).

Definition isfile (p : string) (s : sim) : bool :=
  bool_decide (is_Some (sim_files s !! p)) || bool_decide (is_Some (sim_images s !! p)).
(** A directory that holds [sources] is taken to hold [sources/boot.wim]. *)
Definition has_boot_wim (p : string) (s : sim) : bool :=
  existsb (fun '(d, entries) =>
             String.eqb p (d +:+ "/sources/boot.wim") && existsb (String.eqb "sources") entries)
          (map_to_list (sim_dirs s)).
Definition pexists (p : string) (s : sim) : bool :=
  isfile p s || bool_decide (is_Some (sim_dirs s !! p)) || has_boot_wim p s.
Definition ismount (p : string) (s : sim) : bool :=
  bool_decide (is_Some (sim_mounts s !! p)).

Definition iterdir (p : string) (s : sim) : res (list string) :=
  match sim_mounts s !! p with
  | Some image => Ok (default [] (sim_images s !! image))
  | None =>
      match sim_dirs s !! p with
      | Some entries => Ok entries
      | None => Err (PyError FileNotFoundError ("No such file or directory: " +:+ repr_str p))
      end
  end.

Definition run (argv : list string) (inp : option string) (s : sim) : launched * sim :=
  if fails argv s then (done_err 1 "simulated failure", s)
  else
    match argv with
    | ["sudo"; "cat"; p] =>
        match sim_files s !! p with
        | Some text => (done_ok text, s)
        | None => (done_err 1 ("cat: " +:+ p +:+ ": No such file or directory"), s)
        end
    | ["sudo"; "tee"; p] =>
        let text := default EmptyString inp in
        (done_ok text, with_files (<[p := text]> (sim_files s)) s)
    | ["sudo"; "tee"; "-a"; p] =>
        let text := default EmptyString inp in
        (done_ok text,
         with_files (<[p := default EmptyString (sim_files s !! p) +:+ text]> (sim_files s)) s)
    | ["sudo"; "cp"; a; b] =>
        match sim_files s !! a with
        | Some text => (done_ok EmptyString, with_files (<[b := text]> (sim_files s)) s)
        | None => (done_err 1 ("cp: cannot stat " +:+ repr_str a), s)
        end
    | ["sudo"; "mount"; "-o"; "loop"; image; mp] =>
        match sim_images s !! image with
        | Some _ => (done_ok EmptyString, with_mounts (<[mp := image]> (sim_mounts s)) s)
        | None => (done_err 32 ("mount: " +:+ image +:+ ": failed to setup loop device"), s)
        end
    | ["sudo"; "umount"; mp] =>
        match sim_mounts s !! mp with
        | Some _ => (done_ok EmptyString, with_mounts (delete mp (sim_mounts s)) s)
        | None => (done_err 32 ("umount: " +:+ mp +:+ ": not mounted."), s)
        end
    | "sudo" :: "mkisofs" :: _ =>
        (done_ok EmptyString, with_images (<["CustomWin10.iso" := ["sources"]]> (sim_images s)) s)
    | ["./Mido.sh"; _] =>
        (done_ok EmptyString, with_images (<["win10x64.iso" := ["sources"]]> (sim_images s)) s)
    | "curl" :: rest => (done_ok (default EmptyString (last rest)), s)
    | ["lscpu"] => (done_ok (sim_lscpu s), s)
    | _ => (done_ok EmptyString, s)
    end.

Definition rmtree (p : string) (s : sim) : res unit * sim :=
  (Ok tt, with_dirs (delete p (sim_dirs s)) s).
Definition makedirs (p : string) (s : sim) : res unit * sim :=
  match sim_dirs s !! p with
  | Some _ => (Ok tt, s)
  | None => (Ok tt, with_dirs (<[p := []]> (sim_dirs s)) s)
  end.
Definition copytree (src dst : string) (s : sim) : res unit * sim :=
  if existsb (String.eqb dst) (sim_full s)
  then (Err (PyError OSError "[Errno 28] No space left on device"), s)
  else
  match iterdir src s with
  | Ok entries =>
      (Ok tt, with_dirs (<[dst := (default [] (sim_dirs s !! dst) ++ entries)%list]> (sim_dirs s)) s)
  | Err e => (Err e, s)
  end.
Definition retrieve (url dst : string) (s : sim) : res unit * sim :=
  match sim_web s !! url with
  | Some entries => (Ok tt, with_images (<[dst := entries]> (sim_images s)) s)
  | None => (Err (PyError OSError "HTTP Error 404: Not Found"), s)
  end.
Definition chmod (p : string) (s : sim) : res unit * sim :=
  if isfile p s then (Ok tt, s)
  else (Err (PyError FileNotFoundError ("No such file or directory: " +:+ repr_str p)), s).
Definition mktemp (s : sim) : res string * sim :=
  let name := "/tmp/tmp" +:+ str_int (Z.of_nat (sim_next_tmp s)) in
  (Ok name, with_next_tmp (S (sim_next_tmp s)) (with_dirs (<[name := []]> (sim_dirs s)) s)).
Definition read (p : string) (s : sim) : res string :=
  match sim_files s !! p with
  | Some text => Ok text
  | None => Err (PyError FileNotFoundError ("No such file or directory: " +:+ repr_str p))
  end.
Definition write (p text : string) (s : sim) : res unit * sim :=
  (Ok tt, with_files (<[p := text]> (sim_files s)) s).
Definition remove (p : string) (s : sim) : res unit * sim :=
  (Ok tt, with_files (delete p (sim_files s)) s).

Fixpoint basename_from (acc s : string) : string :=
  match s with
  | EmptyString => acc
  | String c s' =>
      if Ascii.eqb c "/" then basename_from EmptyString s'
      else basename_from (acc +:+ String c EmptyString) s'
  end.

#[global] Instance sim_host : Host sim := {
  spawn := run;
  os_path_isfile := isfile;
  os_path_exists := pexists;
  os_path_ismount := ismount;
  os_path_expanduser := fun p _ => p;
  path_iterdir := iterdir;
  shutil_rmtree := rmtree;
  os_makedirs := makedirs;
  shutil_copytree := copytree;
  urlretrieve := retrieve;
  os_chmod := chmod;
  mkdtemp := mktemp;
  tempdir_cleanup := rmtree;
  read_text := read;
  write_text := write;
  os_remove := remove;
  getuser := fun s => Ok (sim_user s);
  os_cpu_count := sim_cpus;
  os_statvfs := fun _ s => Ok (4096%Z, sim_bavail s);
  format_exc := fun e => "Traceback (most recent call last): " +:+ str_exn e;
  pathstr := fun p => p;
  url_basename := basename_from EmptyString
}.

End SimHost.

(** ** Scenarios on the simulated host *)

Module Scenario.
Import SimHost.

Definition unix_sock_group_commented : string := "#unix_sock_group = " +:+ dq +:+ "libvirt" +:+ dq.
Definition unix_sock_group_plain : string := "unix_sock_group = " +:+ dq +:+ "libvirt" +:+ dq.

Definition libvirtd_conf : string :=
  "# Master libvirt daemon configuration file" +:+ nl +:+
  unix_sock_group_commented +:+ nl +:+
  "#unix_sock_rw_perms = " +:+ dq +:+ "0770" +:+ dq +:+ nl.

Definition qemu_conf : string :=
  "#user = " +:+ dq +:+ "root" +:+ dq +:+ nl +:+
  "#group = " +:+ dq +:+ "root" +:+ dq +:+ nl.

Definition os_release : string :=
  "NAME=" +:+ dq +:+ "Ubuntu" +:+ dq +:+ nl +:+ "ID=ubuntu" +:+ nl +:+ "ID_LIKE=debian" +:+ nl.

Definition meminfo : string :=
  "MemTotal:       16000000 kB" +:+ nl +:+ "MemAvailable:    8192000 kB" +:+ nl.

Definition lscpu : string :=
  "Thread(s) per core:  2" +:+ nl +:+ "Socket(s):           1" +:+ nl +:+
  "NUMA node(s):        1" +:+ nl.

Definition MIDO_URL : string :=
  "https://raw.githubusercontent.com/ElliotKillick/Mido/main/Mido.sh".

(** An Ubuntu host with 8000 MB of available memory, 4 CPUs and 100 GB of
    free disk, the user's ISO at [/home/alice/win.iso]. *)
Definition ubuntu : sim :=
  Sim (list_to_map [("/etc/libvirt/libvirtd.conf", libvirtd_conf);
                    ("/etc/libvirt/qemu.conf", qemu_conf);
                    ("/etc/os-release", os_release);
                    ("/proc/meminfo", meminfo);
                    ("/usr/share/OVMF/OVMF_CODE_4M.fd", "OVMF")])
      (list_to_map [("/home/alice/win.iso", ["sources"; "boot"])])
      ∅ ∅
      (list_to_map [(VIRTIO_ISO_URL, ["viostor"; "NetKVM"]); (MIDO_URL, [])])
      [] [] "alice" 4 (100 * 262144)%Z lscpu 0.

Definition with_failing (f : list (list string)) (s : sim) : sim :=
  Sim (sim_files s) (sim_images s) (sim_dirs s) (sim_mounts s) (sim_web s) f
      (sim_full s) (sim_user s) (sim_cpus s) (sim_bavail s) (sim_lscpu s) (sim_next_tmp s).
Definition with_full (full : list string) (s : sim) : sim :=
  Sim (sim_files s) (sim_images s) (sim_dirs s) (sim_mounts s) (sim_web s) (sim_failing s)
      full (sim_user s) (sim_cpus s) (sim_bavail s) (sim_lscpu s) (sim_next_tmp s).
Definition with_web (web : gmap string (list string)) (s : sim) : sim :=
  Sim (sim_files s) (sim_images s) (sim_dirs s) (sim_mounts s) web (sim_failing s)
      (sim_full s) (sim_user s) (sim_cpus s) (sim_bavail s) (sim_lscpu s) (sim_next_tmp s).

Definition no_dirs : tempdirs :=
  TempDirs EmptyString EmptyString EmptyString EmptyString EmptyString EmptyString.

(** The world at the start of the process: nothing logged, nothing run. *)
Definition boot (h : sim) (lines : list string) : world sim :=
  World h lines [] [] [] no_dirs [].

(** The world after [Stage1()] has made its temporary directories. *)
Definition started (h : sim) (lines : list string) : world sim :=
  snd (init_temp_dirs (boot h lines)).

(** [sudo cp] fails, for instance because [sudo] refuses the user. *)
Definition cp_fails : sim := with_failing [["sudo"; "cp"]] ubuntu.

(** [dpkg-query] reports the packages as not installed. *)
Definition dpkg_fails : sim := with_failing [["dpkg-query"]] ubuntu.

(** [virt-install] fails. *)
Definition virt_install_fails : sim := with_failing [["sudo"; "virt-install"]] ubuntu.

(** The firmware package is not installed. *)
Definition no_firmware : sim :=
  SimHost.with_files (delete OVMF_CODE (sim_files ubuntu)) ubuntu.

(** The VirtIO image is a valid ISO without any file. *)
Definition empty_virtio : sim :=
  SimHost.with_images (<["virtio-win.iso" := []]> (sim_images ubuntu)) ubuntu.

(** The VirtIO image is in place, and the directory the WIM images are mounted
    on has no space left. *)
Definition wim_full : sim :=
  with_full ["/tmp/tmp1"]
    (SimHost.with_images (<["virtio-win.iso" := ["viostor"; "NetKVM"]]> (sim_images ubuntu))
       ubuntu).

(** The directive is commented out twice in [libvirtd.conf]. *)
Definition doubly_commented : sim :=
  SimHost.with_files
    (<["/etc/libvirt/libvirtd.conf" := "#" +:+ unix_sock_group_commented +:+ nl]>
       (sim_files ubuntu))
    ubuntu.

Definition virt_install_cmd : list string :=
  ["sudo"; "virt-install"; "--name"; "MyVM"; "--ram"; "4000"; "--vcpus"; "2"; "--cpu";
   "host,topology.sockets=1,topology.cores=1,topology.threads=2";
   "--os-type"; "windows"; "--os-variant"; "win10"; "--network"; "network=default";
   "--graphics"; "spice"; "--cdrom"; "/home/alice/win.iso"; "--disk";
   "path=/var/lib/libvirt/images/MyVM.img,size=50,bus=scsi,format=qcow2,cache=writeback,discard=unmap";
   "--controller"; "type=scsi,model=virtio-scsi"; "--machine"; "type=pc-q35-6.2";
   "--boot"; "uefi=/usr/share/OVMF/OVMF_CODE_4M.fd,cdrom,hd"; "--memballoon"; "model=virtio"].

(** Choice 1 with the user's ISO, then automatic allocation. *)
Definition own_iso_auto : list string := ["1"; "/home/alice/win.iso"; "y"].

(** Uncommenting the socket group in [libvirtd.conf]. *)
Definition patch_sock_group : M sim unit :=
  modify_config "/etc/libvirt/libvirtd.conf" unix_sock_group_commented unix_sock_group_plain.

(** The simulated host once [libvirtd.conf] holds [text]. *)
Definition conf_written (text : string) (s : sim) : sim :=
  SimHost.with_files (<["/etc/libvirt/libvirtd.conf" := text]> (sim_files s)) s.

(** Building the composite ISO from the user's ISO and [virtio-win.iso]. *)
Definition build_iso (h : sim) : outcome string * world sim :=
  create_custom_iso "/home/alice/win.iso" "virtio-win.iso" (started h []).

End Scenario.

(** The search and replacement strings of the four [modify_config] calls of
    the script, for the invoking user [user]. *)
Definition script_directives (user : string) : list (string * string) :=
  [("#unix_sock_group = " +:+ dq +:+ "libvirt" +:+ dq,
    "unix_sock_group = " +:+ dq +:+ "libvirt" +:+ dq);
   ("#unix_sock_rw_perms = " +:+ dq +:+ "0770" +:+ dq,
    "unix_sock_rw_perms = " +:+ dq +:+ "0770" +:+ dq);
   ("#user = " +:+ dq +:+ "root" +:+ dq, "user = " +:+ dq +:+ user +:+ dq);
   ("#group = " +:+ dq +:+ "root" +:+ dq, "group = " +:+ dq +:+ "libvirt" +:+ dq)].

(** ** The string functions on examples *)

Example str_replace_examples :
  str_replace "aaa" "aa" "b" = "ba"
  /\ str_replace "abcabc" "bc" "X" = "aXaX"
  /\ str_replace "abc" EmptyString "-" = "-a-b-c-"
  /\ str_replace "abc" "abcd" "X" = "abc".
Proof. repeat split; reflexivity. Qed.

Example int_of_str_examples :
  int_of_str "8192000" = Some 8192000%Z
  /\ int_of_str "-5" = Some (-5)%Z
  /\ int_of_str "1_000" = Some 1000%Z
  /\ int_of_str "1__0" = None
  /\ int_of_str "12a" = None
  /\ int_of_str EmptyString = None.
Proof. repeat split; reflexivity. Qed.

Example split_examples :
  split_ws ("MemAvailable:    8192000 kB" +:+ nl) = ["MemAvailable:"; "8192000"; "kB"]
  /\ rstrip_by (Ascii.eqb ":") "MemAvailable:" = "MemAvailable"
  /\ readlines ("a" +:+ nl +:+ "b" +:+ nl) = ["a"; "b"]
  /\ strip ("  a b " +:+ nl) = "a b".
Proof. repeat split; reflexivity. Qed.

Example re_search_examples :
  re_search_ID ("NAME=x" +:+ nl +:+ "VERSION_ID=1" +:+ nl +:+ "ID=pop" +:+ nl) = Some "pop"
  /\ re_search_ID "VERSION_ID=1" = None
  /\ re_search_field "Socket(s):" ("Socket(s): x" +:+ nl +:+ "Socket(s):   12 3") = Some "12"
  /\ re_search_field "Socket(s):" "Socket(s)" = None.
Proof. repeat split; reflexivity. Qed.

(** ** Facts about [str.replace] on commented directives *)

Section Uncomment.
Variables (r new : string).
Let hash : ascii := ascii_of_nat 35.
Let old : string := String hash r.
Let R : string -> string := replace_from old new 0.

Lemma append_cons (a : ascii) (s t : string) : String a s +:+ t = String a (s +:+ t).
Proof. reflexivity. Qed.

Lemma append_nil (t : string) : EmptyString +:+ t = t.
Proof. reflexivity. Qed.

Lemma replace_from_skip (o n : string) (s : string) :
  forall k, replace_from o n k s = replace_from o n 0 (str_drop k s).
Proof.
  induction s as [|c s IH]; intros [|k]; cbn; try reflexivity. apply IH.
Qed.

Lemma R_unfold (c : ascii) (s : string) :
  R (String c s)
  = if startswith old (String c s)
    then new +:+ R (str_drop (String.length r) s)
    else String c (R s).
Proof.
  unfold R. cbn [replace_from].
  destruct (startswith old (String c s)); [| reflexivity].
  rewrite replace_from_skip.
  replace (String.length old - 1) with (String.length r) by (unfold old; cbn; lia).
  reflexivity.
Qed.

Lemma startswith_app (q n x : string) :
  startswith q (n +:+ x) = true -> startswith q n || startswith n q = true.
Proof.
  revert n. induction q as [|a q IH]; intros n H; [reflexivity |].
  destruct n as [|b n]; [apply orb_true_r |].
  rewrite append_cons in H. cbn in H |- *. rewrite (Ascii.eqb_sym b a).
  destruct (Ascii.eqb a b); [apply IH, H | discriminate].
Qed.

Lemma str_in_drop (x s : string) (k : nat) :
  str_in x s = false -> str_in x (str_drop k s) = false.
Proof.
  revert s. induction k as [|k IH]; intros [|c s] H; cbn; try exact H.
  apply IH. cbn in H. apply orb_false_elim in H as [_ H]. exact H.
Qed.

Lemma length_str_drop (k : nat) (s : string) : String.length (str_drop k s) <= String.length s.
Proof.
  revert s. induction k as [|k IH]; intros [|c s]; cbn; try lia. specialize (IH s). lia.
Qed.

Lemma str_in_after_new (x : string) :
  has_char hash new = false -> str_in old (new +:+ x) = str_in old x.
Proof.
  induction new as [|a n IH]; cbn [has_char]; intros H; [reflexivity |].
  apply orb_false_elim in H as [Ha Hn].
  rewrite append_cons. cbn [str_in]. rewrite (IH Hn). unfold old at 1. cbn [startswith].
  rewrite Ascii.eqb_sym, Ha. reflexivity.
Qed.

Lemma suffixes_app (p q : string) : p <> EmptyString -> In q (suffixes (p +:+ q)).
Proof.
  induction p as [|a p IH]; intros Hp; [congruence |].
  rewrite append_cons. cbn [suffixes].
  destruct p as [|b p]; [left; reflexivity | right; apply IH; discriminate].
Qed.

(** Where the patched text starts with a piece [r'] of the directive, either
    the original text did, or the piece runs into a replaced occurrence. *)
Lemma startswith_R (r' : string) :
  forall s, startswith r' (R s) = true ->
            startswith r' s = true
            \/ exists p q, r' = p +:+ q /\ q <> EmptyString
                           /\ startswith old (str_drop (String.length p) s) = true
                           /\ startswith q new || startswith new q = true.
Proof.
  induction r' as [|a r' IH]; intros s H; [left; reflexivity |].
  destruct s as [|c s]; [discriminate H |].
  rewrite R_unfold in H. destruct (startswith old (String c s)) eqn:E.
  - right. exists EmptyString, (String a r'). repeat split; try discriminate.
    + exact E.
    + eapply startswith_app, H.
  - cbn [startswith] in H |- *. destruct (Ascii.eqb a c); [| discriminate].
    destruct (IH s H) as [Hs | (p & q & Hr & Hq & Ho & Hc)]; [left; exact Hs |].
    right. exists (String a p), q. subst r'. repeat split; assumption.
Qed.

(** Uncommenting leaves no commented directive behind, unless the text had a
    doubled comment mark before one. *)
Lemma str_replace_removes_search (content : string) :
  has_char hash new = false ->
  seam_free r new = true ->
  str_in (String hash old) content = false ->
  str_in old (str_replace content old new) = false.
Proof.
  intros Hnew Hseam. change (str_replace content old new) with (R content).
  remember (String.length content) as n eqn:Hn.
  assert (Hle : String.length content <= n) by lia. clear Hn. revert content Hle.
  induction n as [|n IH]; intros [|c s] Hle Hdbl; try reflexivity; cbn in Hle; try lia.
  assert (Hs : str_in (String hash old) s = false).
  { cbn [str_in] in Hdbl. apply orb_false_elim in Hdbl as [_ Hdbl]. exact Hdbl. }
  rewrite R_unfold. destruct (startswith old (String c s)) eqn:E.
  - rewrite str_in_after_new by exact Hnew. apply IH.
    + pose proof (length_str_drop (String.length r) s). lia.
    + apply str_in_drop, Hs.
  - cbn [str_in]. rewrite (IH s) by (try lia; exact Hs). rewrite orb_false_r.
    destruct (startswith old (String c (R s))) eqn:E2; [| reflexivity]. exfalso.
    unfold old in E, E2. cbn [startswith] in E, E2.
    destruct (Ascii.eqb hash c) eqn:Ec; [| discriminate].
    apply Ascii.eqb_eq in Ec. subst c.
    destruct (startswith_R r s E2) as [Hr | (p & q & Hr & Hq & Ho & Hc)]; [congruence |].
    destruct p as [|a p].
    + cbn [String.length str_drop] in Ho.
      cbn [str_in startswith] in Hdbl. rewrite Ascii.eqb_refl in Hdbl.
      fold old in Hdbl. rewrite Ho in Hdbl. discriminate.
    + unfold seam_free in Hseam. rewrite forallb_forall in Hseam.
      assert (Hin : In q (suffixes r)) by (rewrite Hr; apply suffixes_app; discriminate).
      specialize (Hseam q Hin). destruct q; [congruence |].
      rewrite Hc in Hseam. discriminate.
Qed.

End Uncomment.

Lemma has_char_app (c : ascii) (a b : string) :
  has_char c (a +:+ b) = has_char c a || has_char c b.
Proof.
  induction a as [|x a IH]; [reflexivity |].
  rewrite append_cons. cbn [has_char]. rewrite IH. apply orb_assoc.
Qed.

(** For each of the four directives of the script: when the file does not hold
    the directive with a doubled comment mark, one application leaves no
    commented directive behind, so that a second application finds nothing. *)
Lemma script_directives_patch_once (user content search_string replace_string : string) :
  has_char "#" user = false ->
  In (search_string, replace_string) (script_directives user) ->
  str_in ("#" +:+ search_string) content = false ->
  str_in search_string (str_replace content search_string replace_string) = false.
Proof.
  intros Hu Hin Hdbl.
  destruct Hin as [E|[E|[E|[E|[]]]]]; inversion E; subst; clear E;
    apply str_replace_removes_search; try reflexivity; try exact Hdbl.
  change (ascii_of_nat 35) with "#"%char. rewrite !has_char_app, Hu. reflexivity.
Qed.

(** ** Properties that hold on every host *)

Section Properties.
Context {OS : Type} {HOST : Host OS}.
Implicit Types (w : world OS).

Lemma exceeds_true (a b c x y z : Z) :
  exceeds a b c x y z = true <-> (a > x \/ b > y \/ c > z)%Z.
Proof.
  unfold exceeds. rewrite !orb_true_iff, !Z.gtb_gt. tauto.
Qed.

Lemma exceeds_false (a b c x y z : Z) :
  exceeds a b c x y z = false <-> (a <= x /\ b <= y /\ c <= z)%Z.
Proof.
  rewrite <- not_true_iff_false, exceeds_true. lia.
Qed.

(** C1. The allocation validator is fatal (an ERROR log line, then exit
    status 1) exactly when some allocated quantity is strictly above what is
    available, and returns without touching anything exactly when the three
    quantities are within bounds. *)
Theorem validate_allocation_fatal_iff_exceeds (a b c x y z : Z) w :
  ((a > x \/ b > y \/ c > z)%Z <->
   validate_allocation a b c x y z w
   = (Exit 1, add_log ERROR "Invalid resource allocation." w))
  /\ ((a <= x /\ b <= y /\ c <= z)%Z <->
      validate_allocation a b c x y z w = (Ret tt, w)).
Proof.
  unfold validate_allocation, when.
  destruct (exceeds a b c x y z) eqn:E.
  - apply exceeds_true in E. split.
    + split; [reflexivity | intros _; exact E].
    + split; [lia | discriminate].
  - apply exceeds_false in E. split.
    + split; [lia | discriminate].
    + split; [reflexivity | intros _; exact E].
Qed.

(** C2. Automatic allocation returns the floor of half of each available
    quantity, and does nothing else than log four lines; 8000 MB of available
    memory give 4000 MB. *)
Theorem auto_allocation_halves (ram cpus disk : Z) w :
  auto_allocation ram cpus disk w
  = (Ret ((ram / 2)%Z, (cpus / 2)%Z, (disk / 2)%Z),
     add_log INFO ("Allocated Disk Space: " +:+ str_int (disk / 2) +:+ "GB")
       (add_log INFO ("Allocated CPU cores: " +:+ str_int (cpus / 2))
          (add_log INFO ("Allocated RAM: " +:+ str_int (ram / 2) +:+ "MB")
             (add_log INFO "Automatically allocating resources..." w))))
  /\ (2 * (ram / 2) <= ram < 2 * (ram / 2) + 2)%Z
  /\ (2 * (cpus / 2) <= cpus < 2 * (cpus / 2) + 2)%Z
  /\ (2 * (disk / 2) <= disk < 2 * (disk / 2) + 2)%Z
  /\ fst (auto_allocation 8000 cpus disk w) = Ret (4000%Z, (cpus / 2)%Z, (disk / 2)%Z).
Proof.
  repeat split; try reflexivity;
    try (pose proof (Z.div_mod ram 2); pose proof (Z.mod_pos_bound ram 2); lia);
    try (pose proof (Z.div_mod cpus 2); pose proof (Z.mod_pos_bound cpus 2); lia);
    try (pose proof (Z.div_mod disk 2); pose proof (Z.mod_pos_bound disk 2); lia).
Qed.

(** C7. Unmounting a path that is not a mount point logs one warning and
    returns: no command is run, nothing is raised, and the world is the one
    before the call but for that log line. *)
Theorem unmount_not_mounted (p : pathlike) w :
  os_path_ismount (to_Path p) (host w) = false ->
  unmount p w = (Ret tt, add_log WARNING (to_Path p +:+ " is not mounted.") w).
Proof.
  intros Hm. unfold unmount, is_mounted, ask, mbind, M_bind, bind.
  rewrite Hm. reflexivity.
Qed.

(** *** Reasoning about the program monad *)

Lemma bind_Ret_inv {A B} (m : M OS A) (k : A -> M OS B) w v w' :
  (m ≫= k) w = (Ret v, w') ->
  exists a w1, m w = (Ret a, w1) /\ k a w1 = (Ret v, w').
Proof.
  unfold mbind, M_bind, bind. destruct (m w) as [[a|e|c] w1]; intros H; try discriminate.
  exists a, w1. auto.
Qed.

(** [m] can only return values that satisfy [P]. *)
Definition returns_only {A} (m : M OS A) (P : A -> Prop) : Prop :=
  forall w v w', m w = (Ret v, w') -> P v.

Lemma returns_only_bind {A B} (m : M OS A) (k : A -> M OS B) (P : B -> Prop) :
  (forall a, returns_only (k a) P) -> returns_only (m ≫= k) P.
Proof.
  intros Hk w v w' H. apply bind_Ret_inv in H as (a & w1 & _ & H). eapply Hk, H.
Qed.

Lemma returns_only_bind_strong {A B} (m : M OS A) (k : A -> M OS B) Q (P : B -> Prop) :
  returns_only m Q -> (forall a, Q a -> returns_only (k a) P) -> returns_only (m ≫= k) P.
Proof.
  intros Hm Hk w v w' H. apply bind_Ret_inv in H as (a & w1 & Ha & H).
  eapply Hk; [eapply Hm, Ha | exact H].
Qed.

Lemma returns_only_mret {A} (a : A) (P : A -> Prop) : P a -> returns_only (mret a) P.
Proof. intros Ha w v w' H. inversion H. subst. exact Ha. Qed.

Lemma returns_only_fail {A} msg exc (P : A -> Prop) : returns_only (fail msg exc) P.
Proof. intros w v w' H. unfold fail in H. destruct exc; discriminate. Qed.

Lemma returns_only_try_except {A} (m : M OS A) h (P : A -> Prop) :
  returns_only m P ->
  (forall e k, h e = Some k -> returns_only k P) ->
  returns_only (try_except m h) P.
Proof.
  intros Hm Hh w v w' H. unfold try_except in H.
  destruct (m w) as [[a|e|c] w1] eqn:E.
  - inversion H; subst. eapply Hm, E.
  - destruct (h e) as [k|] eqn:Ek; [eapply Hh; eauto | discriminate].
  - discriminate.
Qed.

Lemma returns_only_try_finally {A} (m : M OS A) f (P : A -> Prop) :
  returns_only m P -> returns_only (try_finally m f) P.
Proof.
  intros Hm w v w' H. unfold try_finally in H.
  destruct (m w) as [o w1] eqn:E. destruct (f w1) as [[u|e|c] w2]; try discriminate.
  inversion H; subst. eapply Hm, E.
Qed.

Lemma str_mem_In (s : string) (l : list string) : str_mem s l = true <-> In s l.
Proof.
  unfold str_mem. rewrite existsb_exists. split.
  - intros (x & Hx & E). apply String.eqb_eq in E. subst. exact Hx.
  - intros H. exists s. split; [exact H | apply String.eqb_refl].
Qed.

(** *** The ISO handlers *)

(** One step through a definition whose last statement decides the value. *)
Ltac returns_step :=
  first [ apply returns_only_fail
        | apply returns_only_mret; reflexivity
        | apply returns_only_bind; intros ].

Lemma generate_custom_iso_returns :
  returns_only generate_custom_iso (fun v => v = "CustomWin10.iso").
Proof. unfold generate_custom_iso. repeat returns_step. Qed.

Lemma create_custom_iso_returns win_iso virtio_iso :
  returns_only (create_custom_iso win_iso virtio_iso) (fun v => v = "CustomWin10.iso").
Proof.
  unfold create_custom_iso.
  apply returns_only_bind; intros _.
  apply returns_only_try_finally.
  apply returns_only_try_except.
  - do 8 (apply returns_only_bind; intros).
    apply generate_custom_iso_returns.
  - intros e k [= <-]. apply returns_only_fail.
Qed.


(** *** UEFI firmware *)

Lemma get_uefi_path_supported w text d :
  read_text "/etc/os-release" (host w) = Ok text ->
  re_search_ID text = Some d ->
  In d SUPPORTED_DISTROS ->
  get_uefi_path w = (Ret OVMF_CODE, w).
Proof.
  intros Hr Hs Hd. apply str_mem_In in Hd.
  unfold get_uefi_path, mbind, M_bind, bind, ask_res. rewrite Hr, Hs, Hd. reflexivity.
Qed.

Lemma get_uefi_path_unsupported w text d :
  read_text "/etc/os-release" (host w) = Ok text ->
  re_search_ID text = Some d ->
  ~ In d SUPPORTED_DISTROS ->
  get_uefi_path w
  = (Exit 1, add_log ERROR "Unsupported Linux distribution for UEFI firmware." w).
Proof.
  intros Hr Hs Hd. rewrite <- str_mem_In in Hd. apply not_true_is_false in Hd.
  unfold get_uefi_path, mbind, M_bind, bind, ask_res. rewrite Hr, Hs, Hd. reflexivity.
Qed.

(** C9. With [d] the identifier on the [ID=] line of [/etc/os-release]: when
    [d] is one of ubuntu, pop, debian, linuxmint the resolver returns
    [/usr/share/OVMF/OVMF_CODE_4M.fd]; otherwise it is fatal; and for a
    supported [d] whose firmware file is missing, [create_vm] is fatal before
    it runs any command. *)
Theorem uefi_path_resolution w text d :
  read_text "/etc/os-release" (host w) = Ok text ->
  re_search_ID text = Some d ->
  (In d ["ubuntu"; "pop"; "debian"; "linuxmint"] ->
   get_uefi_path w = (Ret "/usr/share/OVMF/OVMF_CODE_4M.fd", w))
  /\ (~ In d ["ubuntu"; "pop"; "debian"; "linuxmint"] ->
      get_uefi_path w
      = (Exit 1, add_log ERROR "Unsupported Linux distribution for UEFI firmware." w)
      /\ forall vm_name iso_path,
          exists w', create_vm vm_name iso_path w = (Exit 1, w') /\ trace w' = trace w)
  /\ (In d ["ubuntu"; "pop"; "debian"; "linuxmint"] ->
      os_path_isfile "/usr/share/OVMF/OVMF_CODE_4M.fd" (host w) = false ->
      forall vm_name iso_path,
      exists w', create_vm vm_name iso_path w = (Exit 1, w')
                 /\ trace w' = trace w
                 /\ In (ERROR, "UEFI firmware not found at specified path: "
                                 +:+ "/usr/share/OVMF/OVMF_CODE_4M.fd") (logs w')).
Proof.
  intros Hr Hs. split; [| split].
  - intros Hd. eapply get_uefi_path_supported; eauto.
  - intros Hd. split; [eapply get_uefi_path_unsupported; eauto |].
    intros vm iso. eexists. split.
    + unfold create_vm, mbind, M_bind, bind, log.
      erewrite get_uefi_path_unsupported; eauto.
    + reflexivity.
  - intros Hd Hf vm iso. eexists. split; [| split].
    + unfold create_vm, mbind, M_bind, bind, log.
      erewrite get_uefi_path_supported; eauto.
      unfold ask, when, fail, OVMF_CODE, mbind, M_bind, bind, log, sys_exit. cbn [host add_log].
      rewrite Hf. cbn. reflexivity.
    + reflexivity.
    + cbn [logs add_log]. apply in_or_app. right. left. reflexivity.
Qed.

(** *** The ISO prompt *)

Lemma ask_choice_cases w :
  match stdin w with
  | [] => exists w', ask_choice w = (Raise (PyError EOFError "EOF when reading a line"), w')
  | l :: rest =>
      if str_mem l ISO_CHOICES
      then ask_choice w = (Ret (Some l), set_stdin rest (add_stdout "Select an option: " w))
      else ask_choice w
           = (Ret None,
              add_stdout "Invalid choice, please try again."
                (set_stdin rest (add_stdout "Select an option: " w)))
  end.
Proof.
  unfold ask_choice, try_except, mbind, M_bind, bind, input.
  destruct (stdin w) as [|l rest].
  - eexists. reflexivity.
  - destruct (str_mem l ISO_CHOICES); reflexivity.
Qed.

(** More rounds than lines change nothing. *)
Lemma choice_loop_rounds rounds :
  forall w, length (stdin w) <= rounds ->
            choice_loop rounds w = choice_loop (length (stdin w)) w.
Proof.
  induction rounds as [|n IH]; intros w Hle.
  - destruct (stdin w) eqn:E; [reflexivity | cbn in Hle; lia].
  - pose proof (ask_choice_cases w) as Ha.
    destruct (stdin w) as [|l rest] eqn:E.
    + destruct Ha as (w' & Ha). cbn [length choice_loop].
      unfold mbind, M_bind, bind. rewrite Ha. reflexivity.
    + cbn [length choice_loop]. unfold mbind, M_bind, bind.
      destruct (str_mem l ISO_CHOICES); rewrite Ha; [reflexivity |].
      rewrite IH; [reflexivity |]. cbn in Hle |- *. lia.
Qed.

Lemma choice_loop_valid rounds : returns_only (choice_loop rounds) (fun c => In c ISO_CHOICES).
Proof.
  induction rounds as [|n IH]; intros w c w' H; cbn [choice_loop] in H;
    apply bind_Ret_inv in H as (r & w1 & Ha & H);
    pose proof (ask_choice_cases w) as Hc;
    destruct (stdin w) as [|l rest];
    try (destruct Hc as (w2 & Hc); rewrite Hc in Ha; discriminate);
    destruct (str_mem l ISO_CHOICES) eqn:El; rewrite Hc in Ha; inversion Ha; subst;
    try (inversion H; subst; apply str_mem_In; exact El).
  eapply IH, H.
Qed.

(** The prompt goes on asking: after any number of rejected lines, the first
    accepted line is the choice, and every rejected line costs one more prompt
    and one error message. *)
Lemma choice_loop_reprompts (bad : list string) (c : string) (rest : list string) :
  Forall (fun l => str_mem l ISO_CHOICES = false) bad ->
  str_mem c ISO_CHOICES = true ->
  forall rounds w,
    stdin w = (bad ++ c :: rest)%list ->
    length bad <= rounds ->
    exists w', choice_loop rounds w = (Ret c, w')
               /\ stdin w' = rest /\ host w' = host w /\ logs w' = logs w
               /\ trace w' = trace w
               /\ stdout w'
                  = (stdout w
                     ++ concat (map (fun _ => ["Select an option: ";
                                               "Invalid choice, please try again."]) bad)
                     ++ ["Select an option: "])%list.
Proof.
  intros Hbad Hc. induction Hbad as [|l bad Hl Hbad IH]; intros rounds w Hin Hlen.
  - cbn [app] in Hin. pose proof (ask_choice_cases w) as Ha. rewrite Hin, Hc in Ha.
    eexists. split.
    + destruct rounds; cbn [choice_loop]; unfold mbind, M_bind, bind; rewrite Ha; reflexivity.
    + cbn. repeat split; reflexivity.
  - cbn [app] in Hin. pose proof (ask_choice_cases w) as Ha. rewrite Hin, Hl in Ha.
    destruct rounds as [|n]; [cbn in Hlen; lia |].
    edestruct (IH n) as (w' & Hw' & Hs & Hh & Hlg & Ht & Ho);
      [| cbn in Hlen; apply le_S_n, Hlen |].
    2:{ exists w'. split.
        - cbn [choice_loop]. unfold mbind, M_bind, bind. rewrite Ha. exact Hw'.
        - repeat split; try eassumption.
          cbn [map concat]. rewrite Ho. cbn [stdout add_stdout set_stdin].
          rewrite <- !app_assoc. reflexivity. }
    reflexivity.
Qed.

Lemma main_branch_valid c : In c ISO_CHOICES -> main_branch c <> InvalidChoice.
Proof.
  intros [<-|[<-|[<-|[]]]]; discriminate.
Qed.

(** C10. Whatever the console gives, a choice returned by the ISO prompt is
    one of 1, 2, 3, so the dispatch of [main] over it never takes the
    "Invalid choice" branch; and the loop of the prompt asks again after each
    rejected line and stops at the first accepted one. *)
Theorem prompt_choice_valid :
  (forall w iso_ref skip_ref download_ref choice w',
      prompt_for_iso_choice w = (Ret (iso_ref, skip_ref, download_ref, choice), w') ->
      In choice ["1"; "2"; "3"] /\ main_branch choice <> InvalidChoice)
  /\ (forall bad choice rest w,
         Forall (fun l => ~ In l ["1"; "2"; "3"]) bad ->
         In choice ["1"; "2"; "3"] ->
         stdin w = (bad ++ choice :: rest)%list ->
         exists w', choice_loop (length (stdin w)) w = (Ret choice, w')
                    /\ stdin w' = rest
                    /\ stdout w'
                       = (stdout w
                          ++ concat (map (fun _ => ["Select an option: ";
                                                    "Invalid choice, please try again."]) bad)
                          ++ ["Select an option: "])%list).
Proof.
  split.
  - intros w iso_ref skip_ref download_ref choice w' H.
    assert (Hc : In choice ISO_CHOICES).
    { unfold prompt_for_iso_choice in H.
      do 3 apply bind_Ret_inv in H as (? & ? & _ & H).
      apply bind_Ret_inv in H as (c & w1 & Hc & H).
      apply choice_loop_valid in Hc.
      apply bind_Ret_inv in H as (i & w2 & _ & H).
      inversion H; subst. exact Hc. }
    split; [exact Hc | apply main_branch_valid, Hc].
  - intros bad choice rest w Hbad Hc Hin.
    destruct (choice_loop_reprompts bad choice rest) with (rounds := length (stdin w)) (w := w)
      as (w' & H1 & H2 & _ & _ & _ & H3).
    + eapply Forall_impl; [exact Hbad |]. intros l Hl. cbn beta in Hl.
      apply not_true_is_false. rewrite str_mem_In. exact Hl.
    + apply str_mem_In, Hc.
    + exact Hin.
    + rewrite Hin, length_app. lia.
    + exists w'. auto.
Qed.

(** *** Patching a config file *)

Lemma subprocess_run_ok cmd inp check w c h :
  spawn cmd inp (host w) = (Started c, h) ->
  returncode c = 0%Z ->
  subprocess_run cmd inp check w = (Ret c, add_trace cmd (Some 0%Z) (set_host h w)).
Proof.
  intros Hs Hrc. unfold subprocess_run. rewrite Hs, Hrc. cbn. rewrite andb_false_r. reflexivity.
Qed.

Lemma subprocess_run_nonzero cmd inp w c h :
  spawn cmd inp (host w) = (Started c, h) ->
  returncode c <> 0%Z ->
  subprocess_run cmd inp true w
  = (Raise (CalledProcessError cmd (returncode c) (cp_stderr c)),
     add_trace cmd (Some (returncode c)) (set_host h w)).
Proof.
  intros Hs Hrc. unfold subprocess_run. rewrite Hs.
  apply Z.eqb_neq in Hrc. rewrite Hrc. reflexivity.
Qed.

Lemma sudo_cat_read_ok file_path w c h :
  spawn ["sudo"; "cat"; file_path] None (host w) = (Started c, h) ->
  returncode c = 0%Z ->
  sudo_cat_read file_path w
  = (Ret (cp_stdout c), add_trace ["sudo"; "cat"; file_path] (Some 0%Z) (set_host h w)).
Proof.
  intros Hs Hrc.
  unfold sudo_cat_read, except_Exception, try_except, mbind, M_bind, bind.
  erewrite subprocess_run_ok by eassumption. reflexivity.
Qed.

Lemma sudo_tee_write_ok file_path content w c h :
  spawn ["sudo"; "tee"; file_path] (Some content) (host w) = (Started c, h) ->
  returncode c = 0%Z ->
  sudo_tee_write file_path content w
  = (Ret tt, add_trace ["sudo"; "tee"; file_path] (Some 0%Z) (set_host h w)).
Proof.
  intros Hs Hrc.
  unfold sudo_tee_write, except_Exception, try_except, mbind, M_bind, bind.
  erewrite subprocess_run_ok by eassumption. rewrite Hrc. reflexivity.
Qed.

(** One application on a file that holds the search string: the text is read
    with [sudo cat], every occurrence is replaced, the result is written with
    [sudo tee]. *)
Lemma modify_config_found file_path search_string replace_string w c1 h1 c2 h2 :
  spawn ["sudo"; "cat"; file_path] None (host w) = (Started c1, h1) ->
  returncode c1 = 0%Z ->
  str_in search_string (cp_stdout c1) = true ->
  spawn ["sudo"; "tee"; file_path]
        (Some (str_replace (cp_stdout c1) search_string replace_string)) h1 = (Started c2, h2) ->
  returncode c2 = 0%Z ->
  modify_config file_path search_string replace_string w
  = (Ret tt,
     add_log INFO ("Modified " +:+ file_path +:+ ".")
       (add_trace ["sudo"; "tee"; file_path] (Some 0%Z)
          (set_host h2 (add_trace ["sudo"; "cat"; file_path] (Some 0%Z) (set_host h1 w))))).
Proof.
  intros Hcat Hrc1 Hin Htee Hrc2.
  unfold modify_config, except_Exception, try_except, mbind, M_bind, bind.
  erewrite sudo_cat_read_ok by eassumption. rewrite Hin.
  erewrite sudo_tee_write_ok; [reflexivity | exact Htee | exact Hrc2].
Qed.

(** One application on a file that does not hold the search string: the text
    is read, a warning is logged, nothing is written. *)
Lemma modify_config_not_found file_path search_string replace_string w c h :
  spawn ["sudo"; "cat"; file_path] None (host w) = (Started c, h) ->
  returncode c = 0%Z ->
  str_in search_string (cp_stdout c) = false ->
  modify_config file_path search_string replace_string w
  = (Ret tt,
     add_log WARNING ("Search string '" +:+ search_string +:+ "' not found in " +:+ file_path)
       (add_trace ["sudo"; "cat"; file_path] (Some 0%Z) (set_host h w))).
Proof.
  intros Hcat Hrc Hin.
  unfold modify_config, except_Exception, try_except, mbind, M_bind, bind.
  erewrite sudo_cat_read_ok by eassumption. rewrite Hin. reflexivity.
Qed.

(** C6, amended. On a file whose text holds the search string, the first
    application replaces every occurrence and writes the file; when the patched
    text no longer holds the search string, the second application reads the
    file, logs the warning about the missing string, writes nothing and returns
    normally. *)
Theorem modify_config_twice file_path search_string replace_string w c1 h1 c2 h2 c3 h3 :
  spawn ["sudo"; "cat"; file_path] None (host w) = (Started c1, h1) ->
  returncode c1 = 0%Z ->
  str_in search_string (cp_stdout c1) = true ->
  spawn ["sudo"; "tee"; file_path]
        (Some (str_replace (cp_stdout c1) search_string replace_string)) h1 = (Started c2, h2) ->
  returncode c2 = 0%Z ->
  spawn ["sudo"; "cat"; file_path] None h2 = (Started c3, h3) ->
  returncode c3 = 0%Z ->
  cp_stdout c3 = str_replace (cp_stdout c1) search_string replace_string ->
  str_in search_string (str_replace (cp_stdout c1) search_string replace_string) = false ->
  exists w1,
    modify_config file_path search_string replace_string w = (Ret tt, w1)
    /\ host w1 = h2
    /\ In (["sudo"; "tee"; file_path], Some 0%Z) (trace w1)
    /\ modify_config file_path search_string replace_string w1
       = (Ret tt,
          add_log WARNING
            ("Search string '" +:+ search_string +:+ "' not found in " +:+ file_path)
            (add_trace ["sudo"; "cat"; file_path] (Some 0%Z) (set_host h3 w1))).
Proof.
  intros Hcat Hrc1 Hin Htee Hrc2 Hcat2 Hrc3 Hout Hgone.
  eexists. split; [eapply modify_config_found; eassumption |].
  split; [reflexivity |]. split.
  - cbn [trace add_log add_trace]. apply in_or_app. right. left. reflexivity.
  - eapply modify_config_not_found.
    + exact Hcat2.
    + exact Hrc3.
    + rewrite Hout. exact Hgone.
Qed.

(** *** The backup *)

(** [backup_file] returns normally whatever the exit status of [cp] is. *)
Lemma backup_file_ignores_exit_status file_path w c h :
  os_path_exists file_path (host w) = true ->
  spawn ["sudo"; "cp"; file_path; file_path +:+ ".backup"] None (host w) = (Started c, h) ->
  backup_file file_path w
  = (Ret tt,
     add_log INFO ("Backup of " +:+ file_path +:+ " created.")
       (add_trace ["sudo"; "cp"; file_path; file_path +:+ ".backup"] (Some (returncode c))
          (set_host h w))).
Proof.
  intros He Hs.
  unfold backup_file, except_Exception, try_except, mbind, M_bind, bind, ask, subprocess_run.
  rewrite He, Hs. reflexivity.
Qed.

(** *** What the prompt hands to mode 1 *)

(** With choice 1 and a path that names a file, the prompt returns
    [os.path.expanduser] of the typed path. *)
Lemma prompt_own_iso w typed rest :
  stdin w = "1" :: typed :: rest ->
  os_path_isfile (os_path_expanduser typed (host w)) (host w) = true ->
  exists w', prompt_for_iso_choice w
             = (Ret (os_path_expanduser typed (host w), "true", "true", "1"), w')
             /\ stdin w' = rest /\ host w' = host w /\ trace w' = trace w.
Proof.
  intros Hin Hf. eexists. split.
  - unfold prompt_for_iso_choice, mbind, M_bind, bind, print.
    cbn [stdin add_stdout]. rewrite Hin. cbn [length choice_loop].
    unfold mbind, M_bind, bind.
    pose proof (ask_choice_cases
                  (add_stdout "3. Securely download a new Windows 10 ISO and install VirtIO drivers."
                     (add_stdout "2. Use your own Windows 10 ISO that needs to have VirtIO drivers installed."
                        (add_stdout "1. Use your own Windows 10 ISO that has VirtIO drivers installed." w))))
      as Ha.
    cbn [stdin add_stdout] in Ha. rewrite Hin in Ha. cbn [str_mem ISO_CHOICES existsb] in Ha.
    change (String.eqb "1" "1" || _) with true in Ha. cbv iota in Ha.
    rewrite Ha. cbn [mret M_ret ret].
    change (str_mem "1" ["1"; "2"]) with true. cbv iota.
    unfold input, ask, when, mbind, M_bind, bind. cbn [stdin set_stdin add_stdout host].
    rewrite Hf. reflexivity.
  - cbn. auto.
Qed.

(** *** Failed commands are fatal: the rules *)

Lemma clean_snoc t ev : clean t -> event_ok ev = true -> clean (t ++ [ev]).
Proof.
  intros Ht Hev. unfold clean. apply Forall_app. split; [exact Ht |].
  constructor; [exact Hev | constructor].
Qed.

Lemma spec_weaken {A} (m : M OS A) (Q Q' : exn -> Prop) :
  spec m Q -> (forall e, Q' e -> Q e) -> spec m Q'.
Proof.
  intros Hm HQ w. specialize (Hm w). destruct (m w) as [[a|e|c] w1]; auto.
Qed.

Lemma spec_mret {A} (a : A) Q : spec (mret a : M OS A) Q.
Proof. intros w. cbn. auto. Qed.

Lemma spec_raise {A} e Q : spec (raise e : M OS A) Q.
Proof. intros w. cbn. auto. Qed.

Lemma spec_bind {A B} (m : M OS A) (k : A -> M OS B) Q :
  spec m Q -> (forall a, spec (k a) Q) -> spec (m ≫= k) Q.
Proof.
  intros Hm Hk w. unfold mbind, M_bind, bind. specialize (Hm w).
  destruct (m w) as [[a|e|c] w1]; try exact Hm.
  specialize (Hk a w1). destruct (k a w1) as [[b|e|c] w2]; auto.
Qed.

Lemma spec_log l msg Q : spec (log l msg : M OS unit) Q.
Proof. intros w. cbn. auto. Qed.

Lemma spec_print msg Q : spec (print msg : M OS unit) Q.
Proof. intros w. cbn. auto. Qed.

Lemma spec_input prompt Q : spec (input prompt : M OS string) Q.
Proof. intros w. unfold input. destruct (stdin w); cbn; auto. Qed.

Lemma spec_ask {A} (f : OS -> A) Q : spec (ask f) Q.
Proof. intros w. cbn. auto. Qed.

Lemma spec_ask_res {A} (f : OS -> res A) Q : spec (ask_res f) Q.
Proof. intros w. unfold ask_res. destruct (f (host w)); cbn; auto. Qed.

Lemma spec_call {A} (f : OS -> res A * OS) Q : spec (call f) Q.
Proof. intros w. unfold call. destruct (f (host w)) as [[a|e] h]; cbn; auto. Qed.

Lemma spec_get_dirs Q : spec (get_dirs : M OS tempdirs) Q.
Proof. intros w. cbn. auto. Qed.

Lemma spec_put_dirs d Q : spec (put_dirs d : M OS unit) Q.
Proof. intros w. cbn. auto. Qed.

Lemma spec_fail {A} msg exc Q : spec (fail msg exc : M OS A) Q.
Proof. intros w. unfold fail. destruct exc; cbn; reflexivity. Qed.

Lemma spec_for_each {A} (l : list A) (body : A -> M OS unit) Q :
  (forall x, spec (body x) Q) -> spec (for_each l body) Q.
Proof.
  intros Hb. induction l as [|x l IH]; cbn [for_each].
  - apply spec_mret.
  - apply spec_bind; [apply Hb | intros _; exact IH].
Qed.

(** A function that reads the world to choose what to run. *)
Lemma spec_reading {A B} (g : world OS -> B) (F : B -> M OS A) Q :
  (forall b, spec (F b) Q) -> spec (fun w => F (g w) w) Q.
Proof. intros HF w. exact (HF (g w) w). Qed.

Lemma fatal_fail {A} msg exc : fatal (fail msg exc : M OS A).
Proof. intros w. unfold fail. destruct exc; cbn; reflexivity. Qed.

Lemma fatal_raise {A} e : fatal (raise e : M OS A).
Proof. intros w. exact I. Qed.

Lemma fatal_bind {A B} (m : M OS A) (k : A -> M OS B) :
  spec m (fun _ => False) -> (forall a, fatal (k a)) -> fatal (m ≫= k).
Proof.
  intros Hm Hk w. unfold mbind, M_bind, bind. specialize (Hm w).
  destruct (m w) as [[a|e|c] w1]; [apply Hk | exact I | exact Hm].
Qed.

(** A handler that returns normally is sound for the exceptions the body
    raises with a clean trace; after any other exception it has to be fatal. *)
Lemma spec_try_except {A} (m : M OS A) h Q :
  spec m Q ->
  (forall e k, h e = Some k -> fatal k \/ (Q e /\ spec k (fun _ => False))) ->
  spec (try_except m h) (fun _ => False).
Proof.
  intros Hm Hh w. unfold try_except. specialize (Hm w).
  destruct (m w) as [[a|e|c] w1]; try exact Hm.
  - destruct (h e) as [k|] eqn:Ek; [| intros []].
    destruct (Hh e k Ek) as [Hf | [Hq Hk]].
    + specialize (Hf w1). destruct (k w1) as [[b|e'|c] w2]; [destruct Hf | intros [] | exact Hf].
    + specialize (Hk w1). destruct (k w1) as [[b|e'|c] w2]; auto.
Qed.

Lemma spec_except_fatal {A} (m : M OS A) h :
  spec m (fun _ => False) -> (forall e, fatal (h e)) ->
  spec (except_Exception m h) (fun _ => False).
Proof.
  intros Hm Hh. unfold except_Exception. eapply spec_try_except; [exact Hm |].
  intros e k [= <-]. left. apply Hh.
Qed.

Lemma spec_try_finally {A} (m : M OS A) f :
  spec m (fun _ => False) -> spec f (fun _ => False) ->
  spec (try_finally m f) (fun _ => False).
Proof.
  intros Hm Hf w. unfold try_finally. specialize (Hm w).
  destruct (m w) as [o w1]. specialize (Hf w1).
  destruct (f w1) as [[u|e|c] w2]; [| intros [] | exact Hf].
  destruct o as [a|e|c]; [auto | intros [] | exact Hm].
Qed.

(** [subprocess.run]: an unchecked command cannot dirty the trace by its exit
    status; with [check=True] a non-zero status raises. *)
Lemma spec_subprocess_run_checked cmd inp :
  spec (subprocess_run cmd inp true)
       (fun e => unchecked cmd = true /\ is_called_process_error e = true).
Proof.
  intros w. unfold subprocess_run.
  destruct (spawn cmd inp (host w)) as [[c|c msg] h].
  - cbn [andb]. destruct (returncode c =? 0)%Z eqn:E; cbn [negb].
    + intros Hc. apply clean_snoc; [exact Hc |]. cbn. rewrite E. reflexivity.
    + intros [Hu _] Hc. apply clean_snoc; [exact Hc |]. cbn. rewrite Hu. apply orb_true_r.
  - intros [_ H]. discriminate H.
Qed.

Lemma spec_subprocess_run_true cmd inp :
  spec (subprocess_run cmd inp true) (fun _ => False).
Proof. eapply spec_weaken; [apply spec_subprocess_run_checked | intros e []]. Qed.

Lemma spec_subprocess_run_unchecked cmd inp check :
  unchecked cmd = true -> spec (subprocess_run cmd inp check) (fun _ => False).
Proof.
  intros Hu w. unfold subprocess_run.
  destruct (spawn cmd inp (host w)) as [[c|c msg] h]; [| intros []].
  assert (Hok : forall t, clean t -> clean (t ++ [(cmd, Some (returncode c))])).
  { intros t Ht. apply clean_snoc; [exact Ht |]. cbn. rewrite Hu. apply orb_true_r. }
  destruct (check && negb (returncode c =? 0)%Z); [intros [] | apply Hok].
Qed.

Lemma spec_subprocess_check_output cmd :
  spec (subprocess_check_output cmd) (fun _ => False).
Proof.
  unfold subprocess_check_output. apply spec_bind; [apply spec_subprocess_run_true |].
  intros c. apply spec_mret.
Qed.

(** [subprocess.call] followed by the test of its result. *)
Lemma spec_call_then_fail {B} cmd msg (k : unit -> M OS B) :
  (forall u, spec (k u) (fun _ => False)) ->
  spec (subprocess_call cmd ≫= fun rc => when (negb (rc =? 0)%Z) (fail msg None) ≫= k)
       (fun _ => False).
Proof.
  intros Hk w. unfold subprocess_call, subprocess_run, mbind, M_bind, bind.
  destruct (spawn cmd None (host w)) as [[c|c m] h]; [| intros []].
  cbn [andb mret M_ret ret returncode].
  destruct (returncode c =? 0)%Z eqn:E; cbn [negb when]; [| reflexivity].
  cbn [mret M_ret ret].
  set (w1 := add_trace cmd (Some (returncode c)) (set_host h w)).
  specialize (Hk tt w1).
  assert (Hc : clean (trace w) -> clean (trace w1)).
  { intros Hc. apply clean_snoc; [exact Hc |]. cbn. rewrite E. reflexivity. }
  destruct (k tt w1) as [[b|e|c'] w2]; auto.
Qed.

(** *** Failed commands are fatal: the methods, one by one *)

Create HintDb progspec discriminated.

#[local] Hint Resolve spec_mret spec_raise spec_log spec_print spec_input spec_ask
  spec_ask_res spec_call spec_get_dirs spec_put_dirs spec_fail
  spec_subprocess_run_true spec_subprocess_check_output : progspec.

Ltac fatal_go :=
  repeat first
    [ simple apply @fatal_fail
    | simple apply @fatal_raise
    | simple apply @fatal_bind; [solve [auto 1 with progspec] | intros] ].

(** One syntax-directed step: a method already treated, or the rule of the
    construct at the head. *)
Ltac spec_step :=
  first
    [ solve [auto 1 with progspec]
    | simple apply @spec_call_then_fail; intros
    | simple apply @spec_bind; [| intros]
    | simple apply @spec_for_each; intros
    | simple apply @spec_except_fatal; [| intros; solve [fatal_go]]
    | match goal with
      | |- spec (when ?b _) _ => unfold when
      | |- spec (if ?b then _ else _) _ => destruct b
      | |- spec (match ?x with _ => _ end) _ => destruct x
      | |- spec (let _ := _ in _) _ => cbv zeta
      end ].

Ltac spec_go := repeat spec_step.

Lemma spec_init_temp_dirs : spec init_temp_dirs (fun _ => False).
Proof. unfold init_temp_dirs. spec_go. Qed.
#[local] Hint Resolve spec_init_temp_dirs : progspec.

Lemma spec_run_subprocess cmd fail_msg : spec (run_subprocess cmd fail_msg) (fun _ => False).
Proof.
  unfold run_subprocess. eapply spec_try_except.
  - apply spec_bind; [apply spec_subprocess_run_checked | intros; apply spec_mret].
  - intros e k Hk. left. destruct e; inversion Hk; subst. fatal_go.
Qed.
#[local] Hint Resolve spec_run_subprocess : progspec.

Lemma spec_sudo_tee_write file_path content :
  spec (sudo_tee_write file_path content) (fun _ => False).
Proof. unfold sudo_tee_write. spec_go. Qed.
#[local] Hint Resolve spec_sudo_tee_write : progspec.

Lemma spec_sudo_cat_read file_path : spec (sudo_cat_read file_path) (fun _ => False).
Proof. unfold sudo_cat_read. spec_go. Qed.
#[local] Hint Resolve spec_sudo_cat_read : progspec.

Lemma spec_is_mounted path Q : spec (is_mounted path) Q.
Proof. apply spec_ask. Qed.
#[local] Hint Resolve spec_is_mounted : progspec.

Lemma spec_unmount mount_point : spec (unmount mount_point) (fun _ => False).
Proof.
  unfold unmount. cbv zeta. apply spec_bind; [spec_go | intros mounted].
  destruct (negb mounted); [spec_go |].
  eapply spec_try_except with (Q := fun _ => False).
  - spec_go.
  - intros e k Hk. left.
    destruct (is_permission_error e); inversion Hk; subst; fatal_go.
Qed.
#[local] Hint Resolve spec_unmount : progspec.

Lemma spec_cleanup_temp_dirs : spec cleanup_temp_dirs (fun _ => False).
Proof. unfold cleanup_temp_dirs. spec_go. Qed.
#[local] Hint Resolve spec_cleanup_temp_dirs : progspec.

Lemma spec_mount_iso iso_path mount_point :
  spec (mount_iso iso_path mount_point) (fun _ => False).
Proof. unfold mount_iso. spec_go. Qed.
#[local] Hint Resolve spec_mount_iso : progspec.

Lemma spec_mount_wim wim_path index : spec (mount_wim wim_path index) (fun _ => False).
Proof.
  unfold mount_wim. apply spec_bind; [spec_go | intros d].
  apply spec_bind; [spec_go | intros _].
  apply spec_bind; [spec_go | intros wim_exists].
  destruct (negb wim_exists); [spec_go |]. cbv zeta.
  eapply spec_try_except.
  - apply spec_bind; [apply spec_subprocess_run_checked | intros; apply spec_log].
  - intros e k Hk. destruct e; inversion Hk; subst.
    right. split; [split; reflexivity | apply spec_log].
Qed.
#[local] Hint Resolve spec_mount_wim : progspec.

Lemma spec_unmount_wim : spec unmount_wim (fun _ => False).
Proof. unfold unmount_wim. spec_go. Qed.
#[local] Hint Resolve spec_unmount_wim : progspec.

Lemma spec_copy_tree src dest : spec (copy_tree src dest) (fun _ => False).
Proof.
  unfold copy_tree. eapply spec_try_except with (Q := fun _ => True).
  - apply spec_call.
  - intros e k Hk. right. split; [exact I |].
    destruct (is_file_exists_error e); [inversion Hk; subst; apply spec_log |].
    destruct (is_permission_error e); [inversion Hk; subst; apply spec_log |].
    destruct e; inversion Hk; subst; try apply spec_raise.
    apply spec_for_each. intros [[s0 d0] m0]. apply spec_log.
Qed.
#[local] Hint Resolve spec_copy_tree : progspec.

Lemma spec_all_installed packages : spec (all_installed packages) (fun _ => False).
Proof.
  induction packages as [|package rest IH]; cbn [all_installed]; [apply spec_mret |].
  apply spec_bind.
  - unfold subprocess_call. apply spec_bind; [| intros; apply spec_mret].
    apply spec_subprocess_run_unchecked. reflexivity.
  - intros rc. destruct (rc =? 0)%Z; [exact IH | apply spec_mret].
Qed.
#[local] Hint Resolve spec_all_installed : progspec.

Lemma spec_install_packages packages : spec (install_packages packages) (fun _ => False).
Proof. unfold install_packages. spec_go. Qed.
#[local] Hint Resolve spec_install_packages : progspec.

Lemma spec_get_redirected_url url : spec (get_redirected_url url) (fun _ => False).
Proof. unfold get_redirected_url. spec_go. Qed.
#[local] Hint Resolve spec_get_redirected_url : progspec.

Lemma spec_download_file url dest : spec (download_file url dest) (fun _ => False).
Proof. unfold download_file. spec_go. Qed.
#[local] Hint Resolve spec_download_file : progspec.

Lemma spec_prepare_directories_for_custom_iso :
  spec prepare_directories_for_custom_iso (fun _ => False).
Proof. unfold prepare_directories_for_custom_iso. spec_go. Qed.
#[local] Hint Resolve spec_prepare_directories_for_custom_iso : progspec.

Lemma spec_copy_virtio_drivers virtio_iso :
  spec (copy_virtio_drivers virtio_iso) (fun _ => False).
Proof. unfold copy_virtio_drivers. spec_go. Qed.
#[local] Hint Resolve spec_copy_virtio_drivers : progspec.

Lemma spec_copy_windows_files win_iso : spec (copy_windows_files win_iso) (fun _ => False).
Proof. unfold copy_windows_files. spec_go. Qed.
#[local] Hint Resolve spec_copy_windows_files : progspec.

Lemma spec_add_drivers_to_windows_boot_images :
  spec add_drivers_to_windows_boot_images (fun _ => False).
Proof. unfold add_drivers_to_windows_boot_images. spec_go. Qed.
#[local] Hint Resolve spec_add_drivers_to_windows_boot_images : progspec.

Lemma spec_generate_custom_iso : spec generate_custom_iso (fun _ => False).
Proof. unfold generate_custom_iso. spec_go. Qed.
#[local] Hint Resolve spec_generate_custom_iso : progspec.

Lemma spec_mounted_isos_append x Q : spec (mounted_isos_append x : M OS unit) Q.
Proof. intros w. cbn. auto. Qed.
#[local] Hint Resolve spec_mounted_isos_append : progspec.

Lemma spec_create_custom_iso win_iso virtio_iso :
  spec (create_custom_iso win_iso virtio_iso) (fun _ => False).
Proof.
  unfold create_custom_iso. apply spec_bind; [intros w; cbn; auto | intros _].
  apply spec_try_finally.
  - spec_go.
  - apply (spec_reading (@mounted_isos OS)
             (fun l => for_each l (fun iso => unmount (PStr iso)))).
    intros l. spec_go.
Qed.
#[local] Hint Resolve spec_create_custom_iso : progspec.

Lemma spec_create_iso_with_virtio_from_user_iso provided_win_iso :
  spec (create_iso_with_virtio_from_user_iso provided_win_iso) (fun _ => False).
Proof. unfold create_iso_with_virtio_from_user_iso. spec_go. Qed.
#[local] Hint Resolve spec_create_iso_with_virtio_from_user_iso : progspec.

Lemma spec_handle_downloaded_iso : spec handle_downloaded_iso (fun _ => False).
Proof. unfold handle_downloaded_iso. spec_go. Qed.
#[local] Hint Resolve spec_handle_downloaded_iso : progspec.

Lemma spec_ask_choice : spec (ask_choice : M OS (option string)) (fun _ => False).
Proof.
  unfold ask_choice. eapply spec_try_except with (Q := fun _ => True).
  - spec_go.
  - intros e k Hk. right. split; [exact I |].
    destruct (is_value_error e); inversion Hk; subst. spec_go.
Qed.
#[local] Hint Resolve spec_ask_choice : progspec.

Lemma spec_choice_loop rounds : spec (choice_loop rounds : M OS string) (fun _ => False).
Proof.
  induction rounds as [|n IH]; cbn [choice_loop];
    (apply spec_bind; [apply spec_ask_choice | intros [c|]; [apply spec_mret |]]).
  - apply spec_raise.
  - exact IH.
Qed.
#[local] Hint Resolve spec_choice_loop : progspec.

Lemma spec_prompt_for_iso_choice : spec prompt_for_iso_choice (fun _ => False).
Proof.
  unfold prompt_for_iso_choice. do 3 (apply spec_bind; [spec_go | intros _]).
  apply spec_bind.
  - apply (spec_reading (fun w => length (stdin w)) choice_loop). apply spec_choice_loop.
  - intros choice. spec_go.
Qed.
#[local] Hint Resolve spec_prompt_for_iso_choice : progspec.

Lemma spec_add_user_to_libvirt_and_kvm_groups :
  spec add_user_to_libvirt_and_kvm_groups (fun _ => False).
Proof. unfold add_user_to_libvirt_and_kvm_groups. spec_go. Qed.
#[local] Hint Resolve spec_add_user_to_libvirt_and_kvm_groups : progspec.

Lemma spec_manage_libvirtd_service actions :
  spec (manage_libvirtd_service actions) (fun _ => False).
Proof. unfold manage_libvirtd_service. spec_go. Qed.
#[local] Hint Resolve spec_manage_libvirtd_service : progspec.

Lemma spec_restart_libvirtd_service : spec restart_libvirtd_service (fun _ => False).
Proof. unfold restart_libvirtd_service. spec_go. Qed.
#[local] Hint Resolve spec_restart_libvirtd_service : progspec.

Lemma spec_enable_virsh_default_network :
  spec enable_virsh_default_network (fun _ => False).
Proof. unfold enable_virsh_default_network. spec_go. Qed.
#[local] Hint Resolve spec_enable_virsh_default_network : progspec.

Lemma spec_backup_file file_path : spec (backup_file file_path) (fun _ => False).
Proof.
  unfold backup_file. apply spec_except_fatal; [| intros; fatal_go].
  apply spec_bind; [spec_go | intros present]. destruct present; [| spec_go].
  cbv zeta. apply spec_bind; [| intros; spec_go].
  apply spec_subprocess_run_unchecked. reflexivity.
Qed.
#[local] Hint Resolve spec_backup_file : progspec.

Lemma spec_modify_config file_path search_string replace_string :
  spec (modify_config file_path search_string replace_string) (fun _ => False).
Proof. unfold modify_config. spec_go. Qed.
#[local] Hint Resolve spec_modify_config : progspec.

Lemma spec_modify_and_backup_libvirt_config :
  spec modify_and_backup_libvirt_config (fun _ => False).
Proof. unfold modify_and_backup_libvirt_config. spec_go. Qed.
#[local] Hint Resolve spec_modify_and_backup_libvirt_config : progspec.

Lemma spec_modify_and_backup_qemu_config :
  spec modify_and_backup_qemu_config (fun _ => False).
Proof. unfold modify_and_backup_qemu_config. spec_go. Qed.
#[local] Hint Resolve spec_modify_and_backup_qemu_config : progspec.

Lemma spec_setup_libvirt : spec setup_libvirt (fun _ => False).
Proof. unfold setup_libvirt. spec_go. Qed.
#[local] Hint Resolve spec_setup_libvirt : progspec.

Lemma spec_resource_assessment : spec resource_assessment (fun _ => False).
Proof. unfold resource_assessment. spec_go. Qed.
#[local] Hint Resolve spec_resource_assessment : progspec.

Lemma spec_auto_or_manual_config : spec (auto_or_manual_config : M OS string) (fun _ => False).
Proof. unfold auto_or_manual_config. spec_go. Qed.
#[local] Hint Resolve spec_auto_or_manual_config : progspec.

Lemma spec_auto_allocation ram cpus disk :
  spec (auto_allocation ram cpus disk : M OS (Z * Z * Z)) (fun _ => False).
Proof. unfold auto_allocation. spec_go. Qed.
#[local] Hint Resolve spec_auto_allocation : progspec.

Lemma spec_input_int prompt : spec (input_int prompt : M OS Z) (fun _ => False).
Proof. unfold input_int. spec_go. Qed.
#[local] Hint Resolve spec_input_int : progspec.

Lemma spec_manual_allocation ram cpus disk :
  spec (manual_allocation ram cpus disk : M OS (Z * Z * Z)) (fun _ => False).
Proof. unfold manual_allocation. spec_go. Qed.
#[local] Hint Resolve spec_manual_allocation : progspec.

Lemma spec_validate_allocation a b c x y z :
  spec (validate_allocation a b c x y z : M OS unit) (fun _ => False).
Proof. unfold validate_allocation. spec_go. Qed.
#[local] Hint Resolve spec_validate_allocation : progspec.

Lemma spec_get_uefi_path : spec get_uefi_path (fun _ => False).
Proof. unfold get_uefi_path. spec_go. Qed.
#[local] Hint Resolve spec_get_uefi_path : progspec.

Lemma spec_int_field label text : spec (int_field label text : M OS Z) (fun _ => False).
Proof. unfold int_field. spec_go. Qed.
#[local] Hint Resolve spec_int_field : progspec.

Lemma spec_get_cpu_topology : spec get_cpu_topology (fun _ => False).
Proof. unfold get_cpu_topology. spec_go. Qed.
#[local] Hint Resolve spec_get_cpu_topology : progspec.

Lemma spec_floordiv a b : spec (floordiv a b : M OS Z) (fun _ => False).
Proof. unfold floordiv. spec_go. Qed.
#[local] Hint Resolve spec_floordiv : progspec.

Lemma spec_create_vm vm_name iso_path : spec (create_vm vm_name iso_path) (fun _ => False).
Proof. unfold create_vm. spec_go. Qed.
#[local] Hint Resolve spec_create_vm : progspec.

Lemma spec_handle_choice user_choice provided_win_iso :
  spec (handle_choice user_choice provided_win_iso) (fun _ => False).
Proof. unfold handle_choice, handle_user_provided_iso. spec_go. Qed.
#[local] Hint Resolve spec_handle_choice : progspec.

Lemma spec_main : spec main (fun _ => False).
Proof. unfold main. spec_go. Qed.
#[local] Hint Resolve spec_main : progspec.

Lemma guarded_script : guarded script.
Proof. unfold guarded, script. spec_go. Qed.

Lemma run_subprocess_nonzero cmd fail_msg w c h :
  spawn cmd None (host w) = (Started c, h) ->
  returncode c <> 0%Z ->
  run_subprocess cmd fail_msg w
  = (Raise (PyError Exception fail_msg),
     add_log ERROR ("Command failed. Error: " +:+ cp_stderr c)
       (add_trace cmd (Some (returncode c)) (set_host h w))).
Proof.
  intros Hs Hrc. unfold run_subprocess, try_except, mbind, M_bind, bind.
  erewrite subprocess_run_nonzero by eassumption. reflexivity.
Qed.

Lemma not_clean_entry t cmd r :
  In (cmd, r) t -> event_ok (cmd, r) = false -> ~ clean t.
Proof.
  intros Hin Hev Hc. unfold clean in Hc. rewrite Forall_forall in Hc.
  apply list_elem_of_In in Hin. specialize (Hc _ Hin). congruence.
Qed.

(** C3, amended. A command run through [run_subprocess] that exits with a
    non-zero status is logged at ERROR level with its captured standard error
    and raises an exception.  Over the whole script, started from a trace
    without failures: once any command has failed to start, or any command
    other than [dpkg-query], the [sudo cp] of the backup and [sudo wimmountrw]
    has exited with a non-zero status, the process does not return normally
    and its exit status is 1. *)
Theorem checked_command_failure_is_fatal :
  (forall cmd fail_msg w c h,
      spawn cmd None (host w) = (Started c, h) ->
      returncode c <> 0%Z ->
      run_subprocess cmd fail_msg w
      = (Raise (PyError Exception fail_msg),
         add_log ERROR ("Command failed. Error: " +:+ cp_stderr c)
           (add_trace cmd (Some (returncode c)) (set_host h w)))
      /\ exit_status (fst (run_subprocess cmd fail_msg w)) = 1%Z)
  /\ (forall w cmd r,
         clean (trace w) ->
         In (cmd, r) (trace (snd (script w))) ->
         r = None \/ (exists rc, r = Some rc /\ rc <> 0%Z /\ unchecked cmd = false) ->
         exit_status (fst (script w)) = 1%Z).
Proof.
  split.
  - intros cmd fail_msg w c h Hs Hrc.
    rewrite (run_subprocess_nonzero cmd fail_msg w c h Hs Hrc). split; reflexivity.
  - intros w cmd r Hc Hin Hr.
    assert (Hev : event_ok (cmd, r) = false).
    { destruct Hr as [-> | (rc & -> & Hrc & Hu)]; [reflexivity |].
      cbn. rewrite Hu. apply Z.eqb_neq in Hrc. rewrite Hrc. reflexivity. }
    pose proof (guarded_script w) as H.
    destruct (script w) as [[u|e|c] w']; cbn [fst snd exit_status] in *.
    + exfalso. eapply not_clean_entry; eauto.
    + reflexivity.
    + exact H.
Qed.

End Properties.

(** ** Runs on the simulated host *)

Import SimHost Scenario.

(** Closed equations are settled by evaluation. *)
Ltac by_vm :=
  lazymatch goal with
  | |- _ = ?rhs => vm_cast_no_check (@eq_refl _ rhs)
  end.

(** An entry of a list, by its position. *)
Ltac entry n := apply (nth_error_In _ n); by_vm.

Lemma run_eq {A W : Type} (r : outcome A * W) (o : outcome A) :
  fst r = o -> r = (o, snd r).
Proof. destruct r as [o' w]. cbn. intros ->. reflexivity. Qed.

(** The end-to-end scenario of the specification: choice 1, packages
    installed, automatic allocation of 8000 MB, 4 CPUs and 100 GB. *)
Example end_to_end_own_iso :
  fst (script (boot ubuntu own_iso_auto)) = Ret tt
  /\ last (trace (snd (script (boot ubuntu own_iso_auto)))) = Some (virt_install_cmd, Some 0%Z).
Proof. split; by_vm. Qed.

(** C3, as stated, fails: [dpkg-query] exits with status 1, the script goes on
    (it installs the packages and runs everything else) and ends with exit
    status 0. *)
Lemma dpkg_query_failure_is_not_fatal :
  In (["dpkg-query"; "-W"; "-f=${Status}"; "qemu-system-x86"], Some 1%Z)
     (trace (snd (script (boot dpkg_fails own_iso_auto))))
  /\ fst (script (boot dpkg_fails own_iso_auto)) = Ret tt
  /\ exit_status (fst (script (boot dpkg_fails own_iso_auto))) = 0%Z
  /\ last (trace (snd (script (boot dpkg_fails own_iso_auto))))
     = Some (virt_install_cmd, Some 0%Z).
Proof. split; [entry 0 | repeat split; by_vm]. Qed.

(** C3, amended, at work: [virt-install] exits with status 1 and the process
    ends with exit status 1. *)
Lemma virt_install_failure_witness :
  In (virt_install_cmd, Some 1%Z) (trace (snd (script (boot virt_install_fails own_iso_auto))))
  /\ exit_status (fst (script (boot virt_install_fails own_iso_auto))) = 1%Z.
Proof.
  assert (H : In (virt_install_cmd, Some 1%Z)
                 (trace (snd (script (boot virt_install_fails own_iso_auto)))))
    by entry 25.
  split; [exact H |].
  apply (proj2 (@checked_command_failure_is_fatal sim sim_host)
               (boot virt_install_fails own_iso_auto) virt_install_cmd (Some 1%Z)).
  - constructor.
  - exact H.
  - right. exists 1%Z. split; [reflexivity |]. split; [discriminate | reflexivity].
Defined.

(** C4 at its failing input: the [sudo cp] of the backup exits with status 1;
    the script logs that the backup was created, edits the live file and
    returns, and no backup exists. *)
Theorem backup_failure_goes_unnoticed :
  fst (modify_and_backup_libvirt_config (boot cp_fails [])) = Ret tt
  /\ In (["sudo"; "cp"; "/etc/libvirt/libvirtd.conf"; "/etc/libvirt/libvirtd.conf.backup"],
         Some 1%Z)
        (trace (snd (modify_and_backup_libvirt_config (boot cp_fails []))))
  /\ In (INFO, "Backup of /etc/libvirt/libvirtd.conf created.")
        (logs (snd (modify_and_backup_libvirt_config (boot cp_fails []))))
  /\ os_path_isfile "/etc/libvirt/libvirtd.conf.backup"
        (host (snd (modify_and_backup_libvirt_config (boot cp_fails [])))) = false
  /\ read_text "/etc/libvirt/libvirtd.conf" (host (boot cp_fails [])) = Ok libvirtd_conf
  /\ read_text "/etc/libvirt/libvirtd.conf"
        (host (snd (modify_and_backup_libvirt_config (boot cp_fails []))))
     = Ok ("# Master libvirt daemon configuration file" +:+ nl +:+
           "unix_sock_group = " +:+ dq +:+ "libvirt" +:+ dq +:+ nl +:+
           "unix_sock_rw_perms = " +:+ dq +:+ "0770" +:+ dq +:+ nl +:+
           additional_settings).
Proof.
  split; [by_vm |]. split; [entry 0 |]. split; [entry 3 |]. repeat split; by_vm.
Qed.


(** C6, as stated, fails: the file holds the directive commented out twice;
    the first application leaves the commented directive, and the second
    application finds it, edits the file again and logs no warning. *)
Lemma modify_config_second_run_edits_again :
  read_text "/etc/libvirt/libvirtd.conf" (host (boot doubly_commented []))
  = Ok ("#" +:+ unix_sock_group_commented +:+ nl)
  /\ str_in unix_sock_group_commented ("#" +:+ unix_sock_group_commented +:+ nl) = true
  /\ fst (patch_sock_group (boot doubly_commented [])) = Ret tt
  /\ read_text "/etc/libvirt/libvirtd.conf"
       (host (snd (patch_sock_group (boot doubly_commented []))))
     = Ok (unix_sock_group_commented +:+ nl)
  /\ fst (patch_sock_group (snd (patch_sock_group (boot doubly_commented [])))) = Ret tt
  /\ read_text "/etc/libvirt/libvirtd.conf"
       (host (snd (patch_sock_group (snd (patch_sock_group (boot doubly_commented []))))))
     = Ok (unix_sock_group_plain +:+ nl)
  /\ logs (snd (patch_sock_group (snd (patch_sock_group (boot doubly_commented [])))))
     = [(INFO, "Modified /etc/libvirt/libvirtd.conf.");
        (INFO, "Modified /etc/libvirt/libvirtd.conf.")].
Proof. repeat split; by_vm. Qed.

(** C6, amended, on the Ubuntu host: the directive is commented out once; the
    second application changes nothing and logs the warning. *)
Lemma modify_config_twice_witness :
  str_in unix_sock_group_commented libvirtd_conf = true
  /\ str_in unix_sock_group_commented
       (str_replace libvirtd_conf unix_sock_group_commented unix_sock_group_plain) = false
  /\ exists w1,
      patch_sock_group (boot ubuntu []) = (Ret tt, w1)
      /\ read_text "/etc/libvirt/libvirtd.conf" (host w1)
         = Ok (str_replace libvirtd_conf unix_sock_group_commented unix_sock_group_plain)
      /\ exists w2,
          patch_sock_group w1 = (Ret tt, w2)
          /\ host w2 = host w1
          /\ logs w2
             = (logs w1
                ++ [(WARNING, "Search string '" +:+ unix_sock_group_commented
                                +:+ "' not found in /etc/libvirt/libvirtd.conf")])%list.
Proof.
  split; [by_vm |]. split; [by_vm |].
  pose (patched := str_replace libvirtd_conf unix_sock_group_commented unix_sock_group_plain).
  destruct (@modify_config_twice sim sim_host
              "/etc/libvirt/libvirtd.conf" unix_sock_group_commented unix_sock_group_plain
              (boot ubuntu [])
              (Completed 0 libvirtd_conf EmptyString) ubuntu
              (Completed 0 patched EmptyString) (conf_written patched ubuntu)
              (Completed 0 patched EmptyString) (conf_written patched ubuntu))
    as (w1 & H1 & Hh & _ & H2); try by_vm.
  exists w1. split; [exact H1 |]. split; [rewrite Hh; by_vm |].
  eexists. split; [exact H2 |]. split; [| reflexivity].
  cbn [host add_log add_trace set_host]. symmetry. exact Hh.
Defined.

(** C7 on the Ubuntu host: nothing is mounted on [/mnt/iso]. *)
Lemma unmount_not_mounted_witness :
  os_path_ismount "/mnt/iso" (host (boot ubuntu [])) = false
  /\ unmount (PStr "/mnt/iso") (boot ubuntu [])
     = (Ret tt, add_log WARNING "/mnt/iso is not mounted." (boot ubuntu [])).
Proof.
  split; [by_vm |].
  apply (@unmount_not_mounted sim sim_host (PStr "/mnt/iso") (boot ubuntu [])). by_vm.
Defined.


(** C9 on the Ubuntu host, with and without the firmware file. *)
Lemma uefi_path_resolution_witness :
  read_text "/etc/os-release" (host (boot no_firmware [])) = Ok os_release
  /\ re_search_ID os_release = Some "ubuntu"
  /\ get_uefi_path (boot ubuntu []) = (Ret "/usr/share/OVMF/OVMF_CODE_4M.fd", boot ubuntu [])
  /\ exists w', create_vm "MyVM" "/home/alice/win.iso" (boot no_firmware []) = (Exit 1, w')
                 /\ trace w' = [].
Proof.
  assert (H1 : read_text "/etc/os-release" (host (boot no_firmware [])) = Ok os_release)
    by by_vm.
  assert (H2 : read_text "/etc/os-release" (host (boot ubuntu [])) = Ok os_release)
    by by_vm.
  assert (H3 : re_search_ID os_release = Some "ubuntu") by by_vm.
  split; [exact H1 |]. split; [exact H3 |]. split.
  - apply (proj1 (@uefi_path_resolution sim sim_host _ _ _ H2 H3)). left. reflexivity.
  - destruct (proj2 (proj2 (@uefi_path_resolution sim sim_host _ _ _ H1 H3)))
      with (vm_name := "MyVM") (iso_path := "/home/alice/win.iso")
      as (w' & Hw & Ht & _).
    + left. reflexivity.
    + by_vm.
    + exists w'. split; [exact Hw | exact Ht].
Defined.

(** C10 on a console that gives two rejected lines and then 3. *)
Lemma prompt_choice_witness :
  prompt_for_iso_choice (boot ubuntu ["7"; "one"; "3"])
  = (Ret (EmptyString, "false", "true", "3"),
     snd (prompt_for_iso_choice (boot ubuntu ["7"; "one"; "3"])))
  /\ In "3" ["1"; "2"; "3"]
  /\ main_branch "3" <> InvalidChoice.
Proof.
  assert (H : prompt_for_iso_choice (boot ubuntu ["7"; "one"; "3"])
              = (Ret (EmptyString, "false", "true", "3"),
                 snd (prompt_for_iso_choice (boot ubuntu ["7"; "one"; "3"]))))
    by (apply run_eq; by_vm).
  split; [exact H |].
  exact (proj1 (@prompt_choice_valid sim sim_host) _ _ _ _ _ _ H).
Defined.

(** ** The methods that [main] does not reach

    [check_disk_space], [validate_uefi_path], [allocate_resources],
    [validate_resource_allocation], [enable_default_network_for_virsh] and
    [clear_directory] are defined by the class and called by nothing. *)

Section Unreached.
Context {OS : Type} {HOST : Host OS}.
(** [os.listdir] and [os.path.isdir], which only [clear_directory] uses. *)
Variable os_listdir : string -> OS -> res (list string).
Variable os_path_isdir : string -> OS -> bool.

Definition MIN_REQUIRED_SPACE_GB : Z := 7.

Definition check_disk_space (directory : string) : M OS unit :=
  except_Exception
    ('(f_frsize, f_bavail) ← ask_res (os_statvfs directory);
     let available_space := (f_frsize * f_bavail)%Z in
     let min_required_space := (MIN_REQUIRED_SPACE_GB * 1024 * 1024 * 1024)%Z in
     when (available_space <? min_required_space)%Z
          (fail ("Not enough disk space. Please clear at least "
                   +:+ str_int MIN_REQUIRED_SPACE_GB +:+ "GB.") None))
    (fun e => fail ("Failed to check disk space. Error: " +:+ str_exn e) None).

Definition enable_default_network_for_virsh : M OS unit :=
  run_subprocess ["sudo"; "virsh"; "net-autostart"; "default"]
                 "Failed to enable the default network for virsh.".

Definition validate_uefi_path : M OS unit :=
  UEFI_PATH ← get_uefi_path;
  present ← ask (os_path_isfile UEFI_PATH);
  when (negb present) (fail ("UEFI firmware not found at specified path: " +:+ UEFI_PATH) None).

Definition allocate_resources : M OS (Z * Z * Z) :=
  '(available_ram_mb, available_cpus, available_disk_gb) ← resource_assessment;
  auto_allocate ← auto_or_manual_config;
  if String.eqb (lower auto_allocate) "y"
  then auto_allocation available_ram_mb available_cpus available_disk_gb
  else manual_allocation available_ram_mb available_cpus available_disk_gb.

Definition validate_resource_allocation (allocated_ram allocated_cpus allocated_disk : Z)
  : M OS unit :=
  '(available_ram_mb, available_cpus, available_disk_gb) ← resource_assessment;
  when (exceeds allocated_ram allocated_cpus allocated_disk
                available_ram_mb available_cpus available_disk_gb)
       (fail "Invalid resource allocation." None).

(** [os.path.join(a, b)] for a relative [b]. *)
Definition path_join (a b : string) : string :=
  match a with
  | EmptyString => b
  | _ => if String.eqb (str_drop (String.length a - 1) a) "/" then a +:+ b
         else a +:+ "/" +:+ b
  end.

Definition clear_directory (dir_path : string) : M OS unit :=
  names ← ask_res (os_listdir dir_path);
  for_each names
    (fun filename =>
       let file_path := path_join dir_path filename in
       except_Exception
         (is_file ← ask (os_path_isfile file_path);
          if (is_file : bool)
          then call (os_remove file_path)
          else
            is_dir ← ask (os_path_isdir file_path);
            when is_dir (call (shutil_rmtree file_path)))
         (fun e => log ERROR ("Failed to delete " +:+ file_path +:+ ". Reason: " +:+ str_exn e))).

End Unreached.

(** ** More properties of the methods *)

Section Coverage.
Context {OS : Type} {HOST : Host OS}.
Implicit Types (w : world OS).

Lemma except_Exception_Ret_inv {A} (m : M OS A) h w v w' :
  except_Exception m h w = (Ret v, w') ->
  m w = (Ret v, w') \/ exists e w1, m w = (Raise e, w1) /\ h e w1 = (Ret v, w').
Proof.
  unfold except_Exception, try_except. destruct (m w) as [[a|e|c] w1]; intros H.
  - left. exact H.
  - right. eauto.
  - discriminate H.
Qed.

Lemma fail_not_Ret {A} msg exc w (v : A) w' : fail msg exc w <> (Ret v, w').
Proof. unfold fail. destruct exc; discriminate. Qed.

Lemma half_le (n : Z) : (n / 2 <= n <-> -1 <= n)%Z.
Proof.
  pose proof (Z.div_mod n 2). pose proof (Z.mod_pos_bound n 2). lia.
Qed.

(** X1. Automatic allocation followed by the validation of [create_vm]: the
    validation passes exactly when no available quantity is below -1, so for
    every host that reports non-negative resources it never fails; a quantity
    of -2 or less is halved to something larger and is rejected. *)
Theorem auto_allocation_passes_validation (ram cpus disk : Z) w :
  (fst (('(a, b, c) ← auto_allocation ram cpus disk;
         validate_allocation a b c ram cpus disk) w) = Ret tt
   <-> (-1 <= ram /\ -1 <= cpus /\ -1 <= disk)%Z)
  /\ (fst (('(a, b, c) ← auto_allocation ram cpus disk;
            validate_allocation a b c ram cpus disk) w) = Exit 1
      <-> (ram < -1 \/ cpus < -1 \/ disk < -1)%Z).
Proof.
  unfold mbind, M_bind, bind.
  change (auto_allocation ram cpus disk w)
    with (Ret ((ram / 2)%Z, (cpus / 2)%Z, (disk / 2)%Z),
          add_log INFO ("Allocated Disk Space: " +:+ str_int (disk / 2) +:+ "GB")
            (add_log INFO ("Allocated CPU cores: " +:+ str_int (cpus / 2))
               (add_log INFO ("Allocated RAM: " +:+ str_int (ram / 2) +:+ "MB")
                  (add_log INFO "Automatically allocating resources..." w)))).
  cbv iota beta. unfold validate_allocation, when.
  pose proof (half_le ram). pose proof (half_le cpus). pose proof (half_le disk).
  destruct (exceeds (ram / 2) (cpus / 2) (disk / 2) ram cpus disk) eqn:E.
  - apply exceeds_true in E. cbn. split; split; try discriminate; try lia. reflexivity.
  - apply exceeds_false in E. cbn. split; split; try discriminate; try lia. reflexivity.
Qed.

(** X2. Whatever manual allocation returns is within the available
    quantities, so the validation that [create_vm] runs after it cannot fail;
    zero and negative quantities are not excluded. *)
Theorem manual_allocation_within_bounds (ram cpus disk a b c : Z) w w' :
  manual_allocation ram cpus disk w = (Ret (a, b, c), w') ->
  (a <= ram /\ b <= cpus /\ c <= disk)%Z
  /\ validate_allocation a b c ram cpus disk w' = (Ret tt, w').
Proof.
  intros H. unfold manual_allocation in H.
  apply except_Exception_Ret_inv in H as [H | (e & w1 & _ & H)];
    [| exfalso; eapply fail_not_Ret, H].
  apply bind_Ret_inv in H as (a' & w1 & _ & H).
  apply bind_Ret_inv in H as (b' & w2 & _ & H).
  apply bind_Ret_inv in H as (c' & w3 & _ & H).
  apply bind_Ret_inv in H as (u & w4 & Hw & H).
  inversion H; subst; clear H.
  unfold when in Hw. unfold validate_allocation, when.
  destruct (exceeds a b c ram cpus disk) eqn:E.
  - exfalso. eapply fail_not_Ret, Hw.
  - split; [apply exceeds_false, E | reflexivity].
Qed.

Lemma input_int_cases prompt w :
  match stdin w with
  | [] => input_int prompt w
          = (Raise (PyError EOFError "EOF when reading a line"), add_stdout prompt w)
  | l :: rest =>
      match int_of_str (strip l) with
      | Some n => input_int prompt w = (Ret n, set_stdin rest (add_stdout prompt w))
      | None => input_int prompt w
                = (Raise (PyError ValueError
                            ("invalid literal for int() with base 10: " +:+ repr_str l)),
                   set_stdin rest (add_stdout prompt w))
      end
  end.
Proof.
  unfold input_int, input, mbind, M_bind, bind.
  destruct (stdin w) as [|l rest]; [reflexivity |].
  destruct (int_of_str (strip l)); reflexivity.
Qed.


(** *** Reading [/proc/meminfo] *)

Lemma parse_meminfo_app (l1 l2 : list string) :
  forall m, parse_meminfo (l1 ++ l2) m
            = match parse_meminfo l1 m with
              | Ok m1 => parse_meminfo l2 m1
              | Err e => Err e
              end.
Proof.
  induction l1 as [|i l1 IH]; intros m; [reflexivity |].
  cbn [app parse_meminfo].
  destruct (split_ws i) as [|k [|v r]]; try reflexivity.
  destruct (int_of_str v); [apply IH | reflexivity].
Qed.

Lemma parse_meminfo_fields (lines : list string) :
  forall m m', parse_meminfo lines m = Ok m' ->
               Forall (fun line => 2 <= length (split_ws line)) lines.
Proof.
  induction lines as [|i lines IH]; intros m m' H; [constructor |].
  cbn [parse_meminfo] in H.
  destruct (split_ws i) as [|k [|v r]] eqn:E; try discriminate H.
  destruct (int_of_str v); [| discriminate H].
  constructor; [rewrite E; cbn; lia | eapply IH, H].
Qed.

(** X4. The table read from [/proc/meminfo]: a line with fewer than two
    fields (a blank line, for one) makes the whole parse fail; and when the
    parse succeeds, the value kept for the key of the last line is the integer
    of that line, whatever earlier lines said for the same key. *)
Theorem parse_meminfo_last_line_wins (lines : list string) (line k v : string)
        (fields : list string) (m m' : gmap string Z) :
  parse_meminfo (lines ++ [line]) m = Ok m' ->
  split_ws line = k :: v :: fields ->
  m' !! rstrip_by (Ascii.eqb ":") k = int_of_str v
  /\ Forall (fun l => 2 <= length (split_ws l)) (lines ++ [line]).
Proof.
  intros H Hs. split; [| eapply parse_meminfo_fields, H].
  rewrite parse_meminfo_app in H.
  destruct (parse_meminfo lines m) as [m1|e]; [| discriminate H].
  cbn [parse_meminfo] in H. rewrite Hs in H.
  destruct (int_of_str v) as [n|]; [| discriminate H].
  inversion H; subst. apply lookup_insert_eq.
Qed.

(** X5. [resource_assessment] on a readable [/proc/meminfo]: a line with
    fewer than two fields, or a table without [MemAvailable], is fatal (exit
    status 1); otherwise it returns the available memory in MB (KB // 1024),
    the CPU count and the free disk space in GB (bytes // 1024**3), and
    leaves the world as it was. *)
Theorem resource_assessment_outcomes w text :
  read_text "/proc/meminfo" (host w) = Ok text ->
  (Exists (fun line => length (split_ws line) < 2) (readlines text) ->
   fst (resource_assessment w) = Exit 1)
  /\ (forall m, parse_meminfo (readlines text) ∅ = Ok m ->
                m !! "MemAvailable" = None ->
                resource_assessment w
                = (Exit 1,
                   add_log ERROR "Failed to assess system resources. Error: 'MemAvailable'" w))
  /\ (forall m kb f_frsize f_bavail,
         parse_meminfo (readlines text) ∅ = Ok m ->
         m !! "MemAvailable" = Some kb ->
         os_statvfs "/var/lib/libvirt/images/" (host w) = Ok (f_frsize, f_bavail) ->
         resource_assessment w
         = (Ret ((kb / 1024)%Z, os_cpu_count (host w),
                 (f_frsize * f_bavail / (1024 * 1024 * 1024))%Z), w)).
Proof.
  intros Hr. split; [| split].
  - intros Hex.
    unfold resource_assessment, except_Exception, try_except, mbind, M_bind, bind, ask_res.
    rewrite Hr.
    destruct (parse_meminfo (readlines text) ∅) as [m|e] eqn:E; [| reflexivity].
    exfalso. apply parse_meminfo_fields in E.
    rewrite Forall_forall in E. apply Exists_exists in Hex as (line & Hin & Hlt).
    specialize (E line Hin). lia.
  - intros m Hp Hl.
    unfold resource_assessment, except_Exception, try_except, mbind, M_bind, bind, ask_res.
    rewrite Hr, Hp, Hl. reflexivity.
  - intros m kb fr bav Hp Hl Hs.
    unfold resource_assessment, except_Exception, try_except, mbind, M_bind, bind, ask_res, ask.
    rewrite Hr, Hp, Hl. cbn [mret M_ret ret]. rewrite Hs. reflexivity.
Qed.

(** *** Mounting and unmounting *)

Lemma run_subprocess_zero cmd fail_msg w c h :
  spawn cmd None (host w) = (Started c, h) ->
  returncode c = 0%Z ->
  run_subprocess cmd fail_msg w = (Ret tt, add_trace cmd (Some 0%Z) (set_host h w)).
Proof.
  intros Hs Hrc. unfold run_subprocess, try_except, mbind, M_bind, bind.
  erewrite subprocess_run_ok by eassumption. reflexivity.
Qed.

(** X6. Unmounting a path that is a mount point: it returns normally only
    when [umount] exits with status 0 and the directory lists no entry
    afterwards; a non-zero status, a directory that is not empty and a
    directory that cannot be listed are all fatal (exit status 1). *)
Theorem unmount_mounted_outcomes (mount_point : pathlike) w c h :
  os_path_ismount (to_Path mount_point) (host w) = true ->
  spawn ["sudo"; "umount"; to_Path mount_point] None (host w) = (Started c, h) ->
  (returncode c <> 0%Z ->
   fst (unmount mount_point w) = Exit 1
   /\ In (ERROR, "Command failed. Error: " +:+ cp_stderr c) (logs (snd (unmount mount_point w))))
  /\ (returncode c = 0%Z ->
      match path_iterdir (to_Path mount_point) h with
      | Ok [] =>
          unmount mount_point w
          = (Ret tt,
             add_log INFO ("Successfully unmounted " +:+ to_Path mount_point +:+ ".")
               (add_trace ["sudo"; "umount"; to_Path mount_point] (Some 0%Z) (set_host h w)))
      | Ok (_ :: _) =>
          unmount mount_point w
          = (Exit 1,
             add_log ERROR ("Failed to unmount " +:+ to_Path mount_point
                              +:+ ". The directory is not empty.")
               (add_trace ["sudo"; "umount"; to_Path mount_point] (Some 0%Z) (set_host h w)))
      | Err e => fst (unmount mount_point w) = Exit 1
      end).
Proof.
  intros Hm Hs. split.
  - intros Hrc.
    unfold unmount, is_mounted, ask, try_except, mbind, M_bind, bind.
    rewrite Hm. cbn [negb].
    erewrite run_subprocess_nonzero by eassumption.
    cbn [is_permission_error]. split; [reflexivity |].
    unfold fail, mbind, M_bind, bind, log, sys_exit. cbn [snd logs add_log add_trace].
    apply in_or_app. left. apply in_or_app. right. left. reflexivity.
  - intros Hrc.
    unfold unmount, is_mounted, ask, try_except, mbind, M_bind, bind.
    rewrite Hm. cbn [negb].
    erewrite run_subprocess_zero by eassumption.
    unfold ask_res. cbn [host add_trace set_host].
    destruct (path_iterdir (to_Path mount_point) h) as [[|x l]|e]; try reflexivity.
    destruct (is_permission_error e); reflexivity.
Qed.



(** X9. [copy_tree] never stops the process: when [shutil.copytree] succeeds
    nothing is logged, and [FileExistsError], [PermissionError] and
    [shutil.Error] (one log line for each of its entries) are logged and
    swallowed, so the caller goes on as after a complete copy. *)
Theorem copy_tree_swallows_errors (src dest : string) w :
  (forall c, fst (copy_tree src dest w) <> Exit c)
  /\ match shutil_copytree src dest (host w) with
     | (Ok _, h) => copy_tree src dest w = (Ret tt, set_host h w)
     | (Err (PyError FileExistsError _), h) =>
         copy_tree src dest w = (Ret tt, add_log ERROR (dest +:+ " already exists.") (set_host h w))
     | (Err (PyError PermissionError _), h) =>
         copy_tree src dest w
         = (Ret tt,
            add_log ERROR ("Do not have the necessary permissions to copy to " +:+ dest +:+ ".")
              (set_host h w))
     | (Err (ShutilError errors), h) =>
         fst (copy_tree src dest w) = Ret tt
         /\ host (snd (copy_tree src dest w)) = h
         /\ length (logs (snd (copy_tree src dest w))) = length (logs w) + length errors
     | _ => True
     end.
Proof.
  assert (Hlogs : forall (errors : list (string * string * string)) (w0 : world OS),
             exists w1,
               for_each errors
                 (fun '(s0, d0, m0) =>
                    log ERROR ("Error occurred when copying " +:+ s0 +:+ " to "
                                 +:+ d0 +:+ ": " +:+ m0)) w0 = (Ret tt, w1)
               /\ host w1 = host w0
               /\ length (logs w1) = length (logs w0) + length errors).
  { induction errors as [|[[s0 d0] m0] errors IH]; intros w0.
    - exists w0. cbn. repeat split; lia.
    - cbn [for_each]. unfold mbind, M_bind, bind, log.
      destruct (IH (add_log ERROR ("Error occurred when copying " +:+ s0 +:+ " to "
                                     +:+ d0 +:+ ": " +:+ m0) w0)) as (w1 & H1 & H2 & H3).
      exists w1. split; [exact H1 |]. split; [exact H2 |].
      rewrite H3. cbn [logs add_log]. rewrite length_app. cbn. lia. }
  unfold copy_tree, try_except, call.
  destruct (shutil_copytree src dest (host w)) as [[u|e] h]; cbn [fst].
  - split; [discriminate | destruct u; reflexivity].
  - destruct e as [cmd rc err|errors|cls msg].
    + split; [discriminate | exact I].
    + cbn [is_file_exists_error is_permission_error].
      destruct (Hlogs errors (set_host h w)) as (w1 & H1 & H2 & H3).
      rewrite H1. split; [discriminate |]. repeat split; [exact H2 | exact H3].
    + destruct cls; cbn; (split; [discriminate | try exact I; try reflexivity]).
Qed.

(** *** Packages *)

Definition dpkg_query (package : string) : list string :=
  ["dpkg-query"; "-W"; "-f=${Status}"; package].

Lemma all_installed_all_zero (packages : list string) :
  (forall package h, exists c h',
      spawn (dpkg_query package) None h = (Started c, h') /\ returncode c = 0%Z) ->
  forall w, exists w',
    all_installed packages w = (Ret true, w')
    /\ trace w' = (trace w ++ map (fun p => (dpkg_query p, Some 0%Z)) packages)%list
    /\ logs w' = logs w.
Proof.
  intros Hq. induction packages as [|p rest IH]; intros w.
  - exists w. cbn. rewrite app_nil_r. auto.
  - destruct (Hq p (host w)) as (c & h & Hs & Hrc).
    destruct (IH (add_trace (dpkg_query p) (Some 0%Z) (set_host h w))) as (w' & H1 & H2 & H3).
    exists w'. split; [| split].
    + cbn [all_installed]. unfold subprocess_call, mbind, M_bind, bind.
      fold (dpkg_query p). erewrite subprocess_run_ok by eassumption.
      cbn [mret M_ret ret]. rewrite Hrc. exact H1.
    + rewrite H2. cbn [trace add_trace set_host map]. rewrite <- app_assoc. reflexivity.
    + rewrite H3. reflexivity.
Qed.


(** *** CPU topology *)

Lemma digits_value_span (s : string) :
  forall (after_digit : bool) (acc : Z),
    (0 <= acc)%Z ->
    (after_digit = true \/ fst (span_digits s) <> EmptyString) ->
    exists n, digits_value after_digit acc (fst (span_digits s)) = Some n /\ (0 <= n)%Z.
Proof.
  induction s as [|c s IH]; intros b acc Hacc Hb.
  - cbn in *. destruct Hb as [-> | Hb]; [eauto | congruence].
  - cbn [span_digits] in *. destruct (isdigit c) eqn:Ec.
    + destruct (span_digits s) as [d r] eqn:Es. cbn [fst] in *.
      cbn [digits_value]. rewrite Ec.
      apply (IH true); [| left; reflexivity].
      unfold isdigit in Ec. apply andb_true_iff in Ec as [E1 E2].
      apply Nat.leb_le in E1. lia.
    + cbn [fst] in *. destruct Hb as [-> | Hb]; [cbn; eauto | congruence].
Qed.

Lemma re_search_field_digits (label text d : string) :
  re_search_field label text = Some d ->
  exists n, digits_value false 0 d = Some n /\ (0 <= n)%Z.
Proof.
  induction text as [|c text IH]; cbn [re_search_field].
  - destruct (startswith label EmptyString); [| discriminate].
    destruct (fst (span_digits (lstrip (str_drop (String.length label) EmptyString)))) eqn:E;
      [discriminate |].
    intros [= <-]. rewrite <- E. apply digits_value_span; [lia |]. right. congruence.
  - destruct (startswith label (String c text)).
    + destruct (fst (span_digits (lstrip (str_drop (String.length label) (String c text)))))
        eqn:E; [exact IH |].
      intros [= <-]. rewrite <- E. apply digits_value_span; [lia |]. right. congruence.
    + exact IH.
Qed.


(** *** Patching: failures and the directives of the script *)

(** X12. [modify_config] never writes what it could not read: when
    [sudo cat] exits with a non-zero status the process exits with status 1
    and [sudo tee] is not run; and when the text holds the search string and
    [sudo tee] exits with a non-zero status, the process exits with status 1
    as well. *)
Theorem modify_config_failures_are_fatal (file_path search_string replace_string : string)
        w c1 h1 :
  spawn ["sudo"; "cat"; file_path] None (host w) = (Started c1, h1) ->
  (returncode c1 <> 0%Z ->
   fst (modify_config file_path search_string replace_string w) = Exit 1
   /\ trace (snd (modify_config file_path search_string replace_string w))
      = (trace w ++ [(["sudo"; "cat"; file_path], Some (returncode c1))])%list
   /\ host (snd (modify_config file_path search_string replace_string w)) = h1)
  /\ (forall c2 h2,
         returncode c1 = 0%Z ->
         str_in search_string (cp_stdout c1) = true ->
         spawn ["sudo"; "tee"; file_path]
               (Some (str_replace (cp_stdout c1) search_string replace_string)) h1
         = (Started c2, h2) ->
         returncode c2 <> 0%Z ->
         fst (modify_config file_path search_string replace_string w) = Exit 1).
Proof.
  intros Hcat. split.
  - intros Hrc.
    unfold modify_config, sudo_cat_read, except_Exception, try_except, mbind, M_bind, bind.
    erewrite subprocess_run_nonzero by eassumption. repeat split; reflexivity.
  - intros c2 h2 Hrc1 Hin Htee Hrc2.
    unfold modify_config, except_Exception, try_except, mbind, M_bind, bind.
    erewrite sudo_cat_read_ok by eassumption. rewrite Hin.
    unfold sudo_tee_write, except_Exception, try_except, mbind, M_bind, bind.
    erewrite subprocess_run_nonzero; [reflexivity | exact Htee | exact Hrc2].
Qed.

(** X13. The four directives the script uncomments or rewrites, for a user
    name without a comment mark: on a file that holds the commented directive
    and nowhere holds it behind a second comment mark, the first application
    writes the patched text, and on that text the second application writes
    nothing and logs the warning. *)
Theorem script_directive_is_patched_once
        (user file_path search_string replace_string : string) w c1 h1 c2 h2 c3 h3 :
  has_char "#" user = false ->
  In (search_string, replace_string) (script_directives user) ->
  spawn ["sudo"; "cat"; file_path] None (host w) = (Started c1, h1) ->
  returncode c1 = 0%Z ->
  str_in search_string (cp_stdout c1) = true ->
  str_in ("#" +:+ search_string) (cp_stdout c1) = false ->
  spawn ["sudo"; "tee"; file_path]
        (Some (str_replace (cp_stdout c1) search_string replace_string)) h1 = (Started c2, h2) ->
  returncode c2 = 0%Z ->
  spawn ["sudo"; "cat"; file_path] None h2 = (Started c3, h3) ->
  returncode c3 = 0%Z ->
  cp_stdout c3 = str_replace (cp_stdout c1) search_string replace_string ->
  exists w1,
    modify_config file_path search_string replace_string w = (Ret tt, w1)
    /\ host w1 = h2
    /\ modify_config file_path search_string replace_string w1
       = (Ret tt,
          add_log WARNING
            ("Search string '" +:+ search_string +:+ "' not found in " +:+ file_path)
            (add_trace ["sudo"; "cat"; file_path] (Some 0%Z) (set_host h3 w1))).
Proof.
  intros Hu Hin Hcat Hrc1 Hfound Hdbl Htee Hrc2 Hcat2 Hrc3 Hout.
  eexists. split; [eapply modify_config_found; eassumption |]. split; [reflexivity |].
  eapply modify_config_not_found; [exact Hcat2 | exact Hrc3 |].
  rewrite Hout. eapply script_directives_patch_once; eassumption.
Qed.

(** *** The path asked by the prompt *)

Lemma choice_loop_accepts (choice : string) (rest : list string) w :
  In choice ISO_CHOICES ->
  stdin w = choice :: rest ->
  choice_loop (length (stdin w)) w
  = (Ret choice, set_stdin rest (add_stdout "Select an option: " w)).
Proof.
  intros Hc Hin. pose proof (ask_choice_cases w) as Ha. rewrite Hin in Ha.
  apply str_mem_In in Hc. rewrite Hc in Ha.
  rewrite Hin. cbn [length choice_loop]. unfold mbind, M_bind, bind. rewrite Ha. reflexivity.
Qed.

(** X14. What follows an accepted choice.  Choice 3 reads no path and
    returns the empty path.  Choices 1 and 2 read one line, expand [~] in it,
    and return the expanded path when it names a file; when it does not, the
    process exits with status 1 without asking again.  The two flags returned
    with it are ["true"] exactly for choice 1 and ["false"] exactly for
    choice 2. *)
Theorem prompt_path_outcomes w :
  (forall rest,
      stdin w = "3" :: rest ->
      fst (prompt_for_iso_choice w) = Ret (EmptyString, "false", "true", "3")
      /\ stdin (snd (prompt_for_iso_choice w)) = rest)
  /\ (forall choice typed rest,
         In choice ["1"; "2"] ->
         stdin w = choice :: typed :: rest ->
         stdin (snd (prompt_for_iso_choice w)) = rest
         /\ host (snd (prompt_for_iso_choice w)) = host w
         /\ if os_path_isfile (os_path_expanduser typed (host w)) (host w)
            then fst (prompt_for_iso_choice w)
                 = Ret (os_path_expanduser typed (host w),
                        if String.eqb choice "1" then "true" else "false",
                        if String.eqb choice "2" then "false" else "true",
                        choice)
            else fst (prompt_for_iso_choice w) = Exit 1
                 /\ last (logs (snd (prompt_for_iso_choice w)))
                    = Some (ERROR, os_path_expanduser typed (host w)
                                     +:+ " does not exist. Exiting.")).
Proof.
  split.
  - intros rest Hin.
    unfold prompt_for_iso_choice, mbind, M_bind, bind, print.
    erewrite choice_loop_accepts with (choice := "3") (rest := rest);
      [| right; right; left; reflexivity | exact Hin].
    split; reflexivity.
  - intros choice typed rest Hc Hin.
    unfold prompt_for_iso_choice, mbind, M_bind, bind, print.
    erewrite choice_loop_accepts with (choice := choice) (rest := typed :: rest);
      [| destruct Hc as [<-|[<-|[]]]; [left | right; left]; reflexivity | exact Hin].
    assert (Hm : str_mem choice ["1"; "2"] = true) by (apply str_mem_In, Hc).
    rewrite Hm. unfold input, ask, when, mbind, M_bind, bind.
    cbn [stdin set_stdin add_stdout host].
    destruct (os_path_isfile (os_path_expanduser typed (host w)) (host w)).
    + repeat split; reflexivity.
    + cbn [negb fst snd]. unfold fail, mbind, M_bind, bind, log, sys_exit.
      cbn [fst snd stdin host logs add_log set_stdin add_stdout].
      rewrite last_snoc. repeat split; reflexivity.
Qed.

(** *** Methods that let no exception out *)

(** [m] never ends with an exception, and exits only with status 1. *)
Definition returns_or_exits {A} (m : M OS A) : Prop :=
  forall w, (exists a, fst (m w) = Ret a) \/ fst (m w) = Exit 1.

Definition never_raises {A} (m : M OS A) : Prop :=
  forall w e w', m w <> (Raise e, w').

Lemma never_raises_mret {A} (a : A) : never_raises (mret a : M OS A).
Proof. intros w e w'. discriminate. Qed.

Lemma never_raises_log l msg : never_raises (log l msg : M OS unit).
Proof. intros w e w'. discriminate. Qed.

Lemma never_raises_ask {A} (f : OS -> A) : never_raises (ask f).
Proof. intros w e w'. discriminate. Qed.

Lemma never_raises_get_dirs : never_raises (get_dirs : M OS tempdirs).
Proof. intros w e w'. discriminate. Qed.

Lemma never_raises_fail {A} msg exc : never_raises (fail msg exc : M OS A).
Proof. intros w e w'. unfold fail. destruct exc; discriminate. Qed.

Lemma never_raises_bind {A B} (m : M OS A) (k : A -> M OS B) :
  never_raises m -> (forall a, never_raises (k a)) -> never_raises (m ≫= k).
Proof.
  intros Hm Hk w e w'. unfold mbind, M_bind, bind.
  destruct (m w) as [[a|e1|c] w1] eqn:E; [apply Hk | | discriminate].
  exfalso. eapply Hm, E.
Qed.

(** After [fail], what follows is not run. *)
Lemma never_raises_fail_then {A} msg exc (k : unit -> M OS A) :
  never_raises (fail msg exc ≫= k).
Proof. intros w e w'. unfold fail, mbind, M_bind, bind. destruct exc; discriminate. Qed.

Lemma never_raises_when b (m : M OS unit) : never_raises m -> never_raises (when b m).
Proof. intros Hm. destruct b; [exact Hm | apply never_raises_mret]. Qed.

Lemma never_raises_for_each {A} (l : list A) (body : A -> M OS unit) :
  (forall x, never_raises (body x)) -> never_raises (for_each l body).
Proof.
  intros Hb. induction l as [|x l IH]; [apply never_raises_mret |].
  cbn [for_each]. apply never_raises_bind; [apply Hb | intros _; exact IH].
Qed.

Lemma never_raises_try_except {A} (m : M OS A) h :
  (forall e, exists k, h e = Some k /\ never_raises k) -> never_raises (try_except m h).
Proof.
  intros Hh w e w'. unfold try_except.
  destruct (m w) as [[a|e1|c] w1]; try discriminate.
  destruct (Hh e1) as (k & -> & Hk). apply Hk.
Qed.

Lemma never_raises_except {A} (m : M OS A) h :
  (forall e, never_raises (h e)) -> never_raises (except_Exception m h).
Proof. intros Hh. apply never_raises_try_except. intros e. eauto. Qed.

Lemma never_raises_try_finally {A} (m : M OS A) f :
  never_raises m -> never_raises f -> never_raises (try_finally m f).
Proof.
  intros Hm Hf w e w'. unfold try_finally.
  destruct (m w) as [o w1] eqn:E. destruct (f w1) as [[u|e2|c] w2] eqn:E2.
  - destruct o; try discriminate. exfalso. eapply Hm, E.
  - exfalso. eapply Hf, E2.
  - discriminate.
Qed.

Lemma returns_or_exits_intro {A} (m : M OS A) Q :
  never_raises m -> spec m Q -> returns_or_exits m.
Proof.
  intros Hn Hs w. specialize (Hs w). specialize (Hn w).
  destruct (m w) as [[a|e|c] w1]; cbn [fst].
  - left. eauto.
  - exfalso. eapply Hn. reflexivity.
  - right. rewrite Hs. reflexivity.
Qed.

(** The handlers of the script: log, then [fail]. *)
Ltac handler_never_raises :=
  intros;
  repeat first
    [ simple apply @never_raises_fail
    | simple apply @never_raises_fail_then
    | simple apply @never_raises_bind; [first [ simple apply @never_raises_log
                                              | simple apply @never_raises_ask ] | intros] ].

Lemma never_raises_unmount mount_point : never_raises (unmount mount_point).
Proof.
  unfold unmount. cbv zeta. apply never_raises_bind; [apply never_raises_ask | intros mounted].
  destruct (negb mounted); [apply never_raises_log |].
  apply never_raises_try_except. intros e.
  destruct (is_permission_error e); eexists; (split; [reflexivity | handler_never_raises]).
Qed.

Lemma never_raises_mount_iso iso_path mount_point :
  never_raises (mount_iso iso_path mount_point).
Proof.
  unfold mount_iso. cbv zeta. apply never_raises_bind; [apply never_raises_ask | intros b1].
  destruct (negb b1); [apply never_raises_log |].
  apply never_raises_bind; [apply never_raises_ask | intros b2].
  destruct (negb b2); [apply never_raises_log |].
  apply never_raises_except. handler_never_raises.
Qed.

Lemma never_raises_create_custom_iso win_iso virtio_iso :
  never_raises (create_custom_iso win_iso virtio_iso).
Proof.
  unfold create_custom_iso. apply never_raises_bind; [intros w e w'; discriminate | intros _].
  apply never_raises_try_finally.
  - apply never_raises_except. handler_never_raises.
  - intros w. apply never_raises_for_each. intros iso. apply never_raises_unmount.
Qed.


(** X16. The methods of the host configuration turn every exception into an
    exit: [sudo_cat_read], [sudo_tee_write], [backup_file], [modify_config],
    the two [modify_and_backup_..._config] and
    [add_user_to_libvirt_and_kvm_groups] either return or exit with status 1,
    on every host; the [raise] written after [fail] in their handlers is never
    run. *)
Theorem host_config_returns_or_exits :
  (forall file_path, returns_or_exits (sudo_cat_read file_path))
  /\ (forall file_path content, returns_or_exits (sudo_tee_write file_path content))
  /\ (forall file_path, returns_or_exits (backup_file file_path))
  /\ (forall file_path search_string replace_string,
         returns_or_exits (modify_config file_path search_string replace_string))
  /\ returns_or_exits modify_and_backup_libvirt_config
  /\ returns_or_exits modify_and_backup_qemu_config
  /\ returns_or_exits add_user_to_libvirt_and_kvm_groups.
Proof.
  repeat split; intros.
  - eapply returns_or_exits_intro; [| apply spec_sudo_cat_read].
    apply never_raises_except. handler_never_raises.
  - eapply returns_or_exits_intro; [| apply spec_sudo_tee_write].
    apply never_raises_except. handler_never_raises.
  - eapply returns_or_exits_intro; [| apply spec_backup_file].
    apply never_raises_except. handler_never_raises.
  - eapply returns_or_exits_intro; [| apply spec_modify_config].
    apply never_raises_except. handler_never_raises.
  - eapply returns_or_exits_intro; [| apply spec_modify_and_backup_libvirt_config].
    apply never_raises_except. handler_never_raises.
  - eapply returns_or_exits_intro; [| apply spec_modify_and_backup_qemu_config].
    apply never_raises_except. handler_never_raises.
  - eapply returns_or_exits_intro; [| apply spec_add_user_to_libvirt_and_kvm_groups].
    apply never_raises_except. handler_never_raises.
Qed.

(** *** The exit status of the process *)

(** X17. The process ends with exit status 0 or 1 and nothing else: 0 exactly
    when [main] has returned, 1 after every [fail] and after every exception
    that no handler caught. *)
Theorem script_exit_status_is_0_or_1 w :
  (exit_status (fst (script w)) = 0%Z <-> fst (script w) = Ret tt)
  /\ (exit_status (fst (script w)) = 1%Z <-> fst (script w) <> Ret tt)
  /\ (exit_status (fst (script w)) = 0%Z \/ exit_status (fst (script w)) = 1%Z).
Proof.
  pose proof (guarded_script w) as H.
  destruct (script w) as [[[]|e|c] w']; cbn [fst exit_status] in *.
  - repeat split; auto; try discriminate. intros Hn. congruence.
  - repeat split; auto; try discriminate.
  - subst c. repeat split; auto; try discriminate.
Qed.

(** *** Disk space and the allocation dialogue *)

(** X18. [check_disk_space] exits with status 1 exactly when the free space
    of the directory (fragment size times available blocks) is below 7 GiB or
    [os.statvfs] raises, and otherwise returns without touching anything. *)
Theorem check_disk_space_outcomes (directory : string) w :
  match os_statvfs directory (host w) with
  | Ok (f_frsize, f_bavail) =>
      if (f_frsize * f_bavail <? 7 * 1024 * 1024 * 1024)%Z
      then check_disk_space directory w
           = (Exit 1,
              add_log ERROR "Not enough disk space. Please clear at least 7GB." w)
      else check_disk_space directory w = (Ret tt, w)
  | Err e =>
      check_disk_space directory w
      = (Exit 1, add_log ERROR ("Failed to check disk space. Error: " +:+ str_exn e) w)
  end.
Proof.
  unfold check_disk_space, except_Exception, try_except, mbind, M_bind, bind, ask_res.
  destruct (os_statvfs directory (host w)) as [[fr bav]|e]; [| reflexivity].
  cbv zeta. unfold when, MIN_REQUIRED_SPACE_GB.
  destruct (fr * bav <? 7 * 1024 * 1024 * 1024)%Z; reflexivity.
Qed.

Lemma lower_ascii_y (c : ascii) : lower_ascii c = "y"%char <-> c = "y"%char \/ c = "Y"%char.
Proof.
  destruct c as [[] [] [] [] [] [] [] []]; vm_compute;
    (split; [intros H; first [discriminate H | auto] | intros [H | H]; first [discriminate H | auto]]).
Qed.

Lemma lower_is_y (a : string) : String.eqb (lower a) "y" = str_mem a ["y"; "Y"].
Proof.
  destruct a as [|c [|c' a]].
  - reflexivity.
  - cbn [lower]. destruct (str_mem (String c EmptyString) ["y"; "Y"]) eqn:E.
    + apply str_mem_In in E. apply String.eqb_eq. f_equal.
      apply lower_ascii_y. destruct E as [E | [E | []]]; inversion E; auto.
    + apply String.eqb_neq. intros H. inversion H as [Hc].
      apply lower_ascii_y in Hc. apply not_true_iff_false in E. apply E, str_mem_In.
      destruct Hc as [-> | ->]; [left | right; left]; reflexivity.
  - cbn [lower]. transitivity false.
    + apply String.eqb_neq. discriminate.
    + symmetry. apply not_true_iff_false. rewrite str_mem_In.
      intros [E | [E | []]]; discriminate E.
Qed.

(** X19. The answer to the allocation question: only [y] and [Y] select the
    automatic allocation; every other line, [yes] and a blank-padded [y]
    among them, selects the manual dialogue. *)
Theorem allocate_resources_choice (ram cpus disk : Z) (answer : string) (rest : list string)
        w w1 :
  resource_assessment w = (Ret (ram, cpus, disk), w1) ->
  stdin w1 = answer :: rest ->
  allocate_resources w
  = (if str_mem answer ["y"; "Y"]
     then auto_allocation ram cpus disk
     else manual_allocation ram cpus disk)
      (set_stdin rest
         (add_stdout "Do you want to automatically allocate resources? (y/n): " w1))
  /\ str_mem "yes" ["y"; "Y"] = false
  /\ str_mem " y" ["y"; "Y"] = false.
Proof.
  intros Hr Hin. split; [| split; reflexivity].
  unfold allocate_resources, auto_or_manual_config, input, mbind, M_bind, bind.
  rewrite Hr. cbv iota beta. rewrite Hin. rewrite lower_is_y.
  destruct (str_mem answer ["y"; "Y"]); reflexivity.
Qed.

(** X20. The allocation methods let no exception out: [resource_assessment],
    [auto_allocation], [manual_allocation], [validate_allocation] and
    [check_disk_space] either return or exit with status 1. *)
Theorem allocation_returns_or_exits :
  returns_or_exits resource_assessment
  /\ (forall ram cpus disk, returns_or_exits (auto_allocation ram cpus disk))
  /\ (forall ram cpus disk, returns_or_exits (manual_allocation ram cpus disk))
  /\ (forall a b c x y z, returns_or_exits (validate_allocation a b c x y z))
  /\ (forall directory, returns_or_exits (check_disk_space directory)).
Proof.
  repeat split; intros.
  - eapply returns_or_exits_intro; [| apply spec_resource_assessment].
    apply never_raises_except. handler_never_raises.
  - eapply returns_or_exits_intro; [| apply spec_auto_allocation].
    apply never_raises_except. handler_never_raises.
  - eapply returns_or_exits_intro; [| apply spec_manual_allocation].
    apply never_raises_except. handler_never_raises.
  - eapply returns_or_exits_intro; [| apply spec_validate_allocation].
    unfold validate_allocation. apply never_raises_when, never_raises_fail.
  - intros w.
    unfold check_disk_space, except_Exception, try_except, mbind, M_bind, bind, ask_res.
    destruct (os_statvfs directory (host w)) as [[fr bav]|e]; [| right; reflexivity].
    cbv zeta. unfold when.
    destruct (fr * bav <? MIN_REQUIRED_SPACE_GB * 1024 * 1024 * 1024)%Z;
      [right | left; eexists]; reflexivity.
Qed.

(** *** Emptying a directory *)


(** *** Typing the suggested values *)

Lemma digits_value_string_of_uint (d : Decimal.uint) :
  forall (after_digit : bool) (acc : Z),
    (0 <= acc)%Z ->
    after_digit = true \/ d <> Decimal.Nil ->
    digits_value after_digit acc (NilEmpty.string_of_uint d)
    = Some match acc with
           | Z0 => Z.of_N (Pos.of_uint d)
           | Zpos p => Zpos (Pos.of_uint_acc d p)
           | Zneg _ => acc
           end.
Proof.
  induction d as [|d IH|d IH|d IH|d IH|d IH|d IH|d IH|d IH|d IH|d IH]; intros b acc Hacc Hb;
    [ destruct Hb as [-> | Hb]; [destruct acc; reflexivity | congruence]
    | cbn [NilEmpty.string_of_uint digits_value];
      match goal with
      | |- context [isdigit ?c] => change (isdigit c) with true; cbv iota
      end;
      match goal with
      | |- context [(Z.of_nat (nat_of_ascii ?c) - 48)%Z] =>
          let k := eval vm_compute in (Z.of_nat (nat_of_ascii c) - 48)%Z in
          change (Z.of_nat (nat_of_ascii c) - 48)%Z with k
      end;
      rewrite IH by (first [lia | left; reflexivity]);
      destruct acc as [|p|p]; [reflexivity | | lia];
      cbn [Pos.of_uint_acc Z.mul Z.add Pos.mul]; try reflexivity .. ].
  all: try (f_equal; f_equal; f_equal; lia).
Qed.

Lemma rstrip_string_of_uint (d : Decimal.uint) :
  rstrip_by isspace (NilEmpty.string_of_uint d) = NilEmpty.string_of_uint d.
Proof.
  induction d; cbn [NilEmpty.string_of_uint rstrip_by]; [reflexivity | ..];
    rewrite IHd; destruct (NilEmpty.string_of_uint d); reflexivity.
Qed.

Lemma string_of_uint_nonnil (d : Decimal.uint) :
  d <> Decimal.Nil -> NilZero.string_of_uint d = NilEmpty.string_of_uint d.
Proof. destruct d; [congruence | reflexivity ..]. Qed.

(** [int(str(n))] is [n], and [str(n)] has no blank to strip. *)
Lemma int_of_str_str_int (n : Z) :
  strip (str_int n) = str_int n /\ int_of_str (str_int n) = Some n.
Proof.
  unfold str_int, strip. destruct n as [|p|p]; [split; reflexivity | |];
    cbn [Z.to_int NilZero.string_of_int];
    pose proof (Unsigned.to_uint_nonnil p) as Hnil;
    pose proof (Unsigned.of_to p) as Hof;
    rewrite (string_of_uint_nonnil _ Hnil).
  - pose proof (digits_value_string_of_uint (Pos.to_uint p) false 0 ltac:(lia)
                  (or_intror Hnil)) as Hd.
    cbv iota in Hd. rewrite Hof in Hd.
    destruct (Pos.to_uint p); [congruence | ..];
      (split; [| exact Hd]);
      match goal with
      | |- rstrip_by _ (lstrip (NilEmpty.string_of_uint ?d)) = _ =>
          exact (rstrip_string_of_uint d)
      end.
  - pose proof (digits_value_string_of_uint (Pos.to_uint p) false 0 ltac:(lia)
                  (or_intror Hnil)) as Hd.
    cbv iota in Hd. rewrite Hof in Hd. split.
    + cbn [lstrip]. change (isspace "-") with false. cbv iota.
      cbn [rstrip_by]. rewrite rstrip_string_of_uint.
      destruct (NilEmpty.string_of_uint (Pos.to_uint p)); reflexivity.
    + cbn [int_of_str]. change (Ascii.eqb "-" "-") with true. cbv iota.
      rewrite Hd. reflexivity.
Qed.

(** X22. The manual dialogue suggests the halves that the automatic
    allocation would take.  On a host that reports no quantity below -1,
    typing the three suggestions as they are printed gives the allocation of
    [auto_allocation]: the printed integers are read back as the same
    integers and pass the bounds test. *)
Theorem typing_the_suggestions_is_auto_allocation (ram cpus disk : Z) (rest : list string) w :
  (-1 <= ram /\ -1 <= cpus /\ -1 <= disk)%Z ->
  stdin w = str_int (ram / 2) :: str_int (cpus / 2) :: str_int (disk / 2) :: rest ->
  fst (manual_allocation ram cpus disk w) = fst (auto_allocation ram cpus disk w)
  /\ fst (manual_allocation ram cpus disk w) = Ret ((ram / 2)%Z, (cpus / 2)%Z, (disk / 2)%Z)
  /\ stdin (snd (manual_allocation ram cpus disk w)) = rest.
Proof.
  intros (Hr & Hc & Hd) Hin.
  assert (Hread : forall n, int_of_str (strip (str_int n)) = Some n).
  { intros n. destruct (int_of_str_str_int n) as [-> ->]. reflexivity. }
  assert (He : exceeds (ram / 2) (cpus / 2) (disk / 2) ram cpus disk = false).
  { apply exceeds_false. rewrite !half_le. auto. }
  assert (Hm : fst (manual_allocation ram cpus disk w)
               = Ret ((ram / 2)%Z, (cpus / 2)%Z, (disk / 2)%Z)
               /\ stdin (snd (manual_allocation ram cpus disk w)) = rest).
  { unfold manual_allocation, except_Exception, try_except, mbind, M_bind, bind.
    pose proof (input_int_cases
                  ("Enter the amount of RAM to allocate (suggested: "
                     +:+ str_int (ram / 2) +:+ "MB): ") w) as H1.
    rewrite Hin, Hread in H1. rewrite H1.
    match goal with
    | |- context [input_int ?p ?w1] =>
        pose proof (input_int_cases p w1) as H2; cbn [stdin set_stdin add_stdout] in H2;
        rewrite Hread in H2; rewrite H2
    end.
    match goal with
    | |- context [input_int ?p ?w1] =>
        pose proof (input_int_cases p w1) as H3; cbn [stdin set_stdin add_stdout] in H3;
        rewrite Hread in H3; rewrite H3
    end.
    unfold when. rewrite He. split; reflexivity. }
  destruct Hm as [Hm1 Hm2]. split; [| split; assumption].
  rewrite Hm1. reflexivity.
Qed.

End Coverage.

(** ** The properties above on the simulated host *)

(** The user's ISO is mounted on [/mnt/iso], an empty directory. *)
Definition iso_mounted : sim :=
  SimHost.with_mounts (<["/mnt/iso" := "/home/alice/win.iso"]> ∅)
    (SimHost.with_dirs (<["/mnt/iso" := []]> ∅) ubuntu).

(** The same host once [umount] has run. *)
Definition iso_unmounted : sim :=
  SimHost.with_mounts (delete "/mnt/iso" (<["/mnt/iso" := "/home/alice/win.iso"]> ∅))
    iso_mounted.

(** [sudo cat] fails, for instance because [sudo] refuses the user. *)
Definition cat_fails : sim := with_failing [["sudo"; "cat"]] ubuntu.

(** X2 on the Ubuntu host: 4000 MB, 2 CPUs and 50 GB typed against 8000 MB,
    4 CPUs and 100 GB. *)
Lemma manual_allocation_within_bounds_witness :
  fst (manual_allocation 8000 4 100 (boot ubuntu ["4000"; "2"; "50"])) = Ret (4000, 2, 50)%Z
  /\ (4000 <= 8000 /\ 2 <= 4 /\ 50 <= 100)%Z
  /\ validate_allocation 4000 2 50 8000 4 100
       (snd (manual_allocation 8000 4 100 (boot ubuntu ["4000"; "2"; "50"])))
     = (Ret tt, snd (manual_allocation 8000 4 100 (boot ubuntu ["4000"; "2"; "50"]))).
Proof.
  assert (H : fst (manual_allocation 8000 4 100 (boot ubuntu ["4000"; "2"; "50"]))
              = Ret (4000, 2, 50)%Z) by by_vm.
  split; [exact H |].
  exact (@manual_allocation_within_bounds sim sim_host _ _ _ _ _ _ _ _ (run_eq _ _ H)).
Defined.

(** X4 on a table that gives [MemAvailable] twice. *)
Lemma parse_meminfo_last_line_wins_witness :
  parse_meminfo (["MemAvailable: 1 kB"] ++ ["MemAvailable: 8192000 kB"]) ∅
  = Ok (<["MemAvailable" := 8192000%Z]> (<["MemAvailable" := 1%Z]> ∅))
  /\ (<["MemAvailable" := 8192000%Z]> (<["MemAvailable" := 1%Z]> (∅ : gmap string Z)))
       !! rstrip_by (Ascii.eqb ":") "MemAvailable:" = int_of_str "8192000".
Proof.
  assert (H : parse_meminfo (["MemAvailable: 1 kB"] ++ ["MemAvailable: 8192000 kB"]) ∅
              = Ok (<["MemAvailable" := 8192000%Z]> (<["MemAvailable" := 1%Z]> ∅))) by by_vm.
  split; [exact H |].
  refine (proj1 (parse_meminfo_last_line_wins _ _ _ _ ["kB"] _ _ H _)). by_vm.
Defined.

(** X5 on the Ubuntu host: 8192000 KB, 4 CPUs and 26214400 blocks of 4096
    bytes. *)
Lemma resource_assessment_outcomes_witness :
  read_text "/proc/meminfo" (host (boot ubuntu [])) = Ok meminfo
  /\ resource_assessment (boot ubuntu []) = (Ret (8000, 4, 100)%Z, boot ubuntu []).
Proof.
  assert (Hr : read_text "/proc/meminfo" (host (boot ubuntu [])) = Ok meminfo) by by_vm.
  split; [exact Hr |].
  refine (proj2 (proj2 (@resource_assessment_outcomes sim sim_host _ _ Hr))
            (<["MemAvailable" := 8192000%Z]> (<["MemTotal" := 16000000%Z]> ∅))
            8192000%Z 4096%Z (100 * 262144)%Z _ _ _); by_vm.
Defined.

(** X6 on a host where the user's ISO is mounted on an empty directory. *)
Lemma unmount_mounted_outcomes_witness :
  os_path_ismount "/mnt/iso" (host (boot iso_mounted [])) = true
  /\ unmount (PStr "/mnt/iso") (boot iso_mounted [])
     = (Ret tt,
        add_log INFO "Successfully unmounted /mnt/iso."
          (add_trace ["sudo"; "umount"; "/mnt/iso"] (Some 0%Z)
             (set_host iso_unmounted (boot iso_mounted [])))).
Proof.
  assert (Hm : os_path_ismount "/mnt/iso" (host (boot iso_mounted [])) = true) by by_vm.
  split; [exact Hm |].
  refine (proj2 (@unmount_mounted_outcomes sim sim_host (PStr "/mnt/iso") (boot iso_mounted [])
                   (Completed 0 EmptyString EmptyString) iso_unmounted Hm _) eq_refl).
  by_vm.
Defined.

(** X12 on a host where [sudo cat] exits with status 1. *)
Lemma modify_config_failures_are_fatal_witness :
  fst (patch_sock_group (boot cat_fails [])) = Exit 1
  /\ trace (snd (patch_sock_group (boot cat_fails [])))
     = [(["sudo"; "cat"; "/etc/libvirt/libvirtd.conf"], Some 1%Z)]
  /\ host (snd (patch_sock_group (boot cat_fails []))) = cat_fails.
Proof.
  refine (proj1 (@modify_config_failures_are_fatal sim sim_host
                   "/etc/libvirt/libvirtd.conf" unix_sock_group_commented unix_sock_group_plain
                   (boot cat_fails []) (Completed 1 EmptyString "simulated failure") cat_fails _)
            _).
  - by_vm.
  - discriminate.
Defined.

(** X13 on the Ubuntu host, for the socket group and the user [alice]. *)
Lemma script_directive_is_patched_once_witness :
  str_in ("#" +:+ unix_sock_group_commented) libvirtd_conf = false
  /\ exists w1,
      patch_sock_group (boot ubuntu []) = (Ret tt, w1)
      /\ last (logs (snd (patch_sock_group w1)))
         = Some (WARNING, "Search string '" +:+ unix_sock_group_commented
                            +:+ "' not found in /etc/libvirt/libvirtd.conf").
Proof.
  split; [by_vm |].
  pose (patched := str_replace libvirtd_conf unix_sock_group_commented unix_sock_group_plain).
  destruct (@script_directive_is_patched_once sim sim_host
              "alice" "/etc/libvirt/libvirtd.conf"
              unix_sock_group_commented unix_sock_group_plain
              (boot ubuntu [])
              (Completed 0 libvirtd_conf EmptyString) ubuntu
              (Completed 0 patched EmptyString) (conf_written patched ubuntu)
              (Completed 0 patched EmptyString) (conf_written patched ubuntu))
    as (w1 & H1 & _ & H2); try by_vm.
  - left. reflexivity.
  - exists w1. split; [exact H1 |]. unfold patch_sock_group. rewrite H2.
    cbn [snd logs add_log]. apply last_snoc.
Defined.

(** X19 on the Ubuntu host: the answer [Y] selects the automatic allocation. *)
Lemma allocate_resources_choice_witness :
  resource_assessment (boot ubuntu ["Y"]) = (Ret (8000, 4, 100)%Z, boot ubuntu ["Y"])
  /\ fst (allocate_resources (boot ubuntu ["Y"])) = Ret (4000, 2, 50)%Z.
Proof.
  assert (Hr : resource_assessment (boot ubuntu ["Y"])
               = (Ret (8000, 4, 100)%Z, boot ubuntu ["Y"])) by by_vm.
  split; [exact Hr |].
  rewrite (proj1 (@allocate_resources_choice sim sim_host _ _ _ "Y" [] _ _ Hr eq_refl)).
  by_vm.
Defined.

(** X22 on the Ubuntu host: 4000, 2 and 50 are suggested and typed. *)
Lemma typing_the_suggestions_witness :
  fst (manual_allocation 8000 4 100 (boot ubuntu ["4000"; "2"; "50"; "left"]))
  = fst (auto_allocation 8000 4 100 (boot ubuntu ["4000"; "2"; "50"; "left"]))
  /\ fst (manual_allocation 8000 4 100 (boot ubuntu ["4000"; "2"; "50"; "left"]))
     = Ret (4000, 2, 50)%Z
  /\ stdin (snd (manual_allocation 8000 4 100 (boot ubuntu ["4000"; "2"; "50"; "left"])))
     = ["left"].
Proof.
  apply (@typing_the_suggestions_is_auto_allocation sim sim_host 8000 4 100 ["left"]
           (boot ubuntu ["4000"; "2"; "50"; "left"])).
  - lia.
  - by_vm.
Defined.
